(** * Airbnb dashboard: the date-aware price estimator of [streamlit_app.py]

    The development embeds the estimator section of the Streamlit script
    (lines 116-192) and the column guards of the chart sections as Rocq
    functions, and proves the properties of the specification about them.

    Modelling conventions.
    - A calendar date is its proleptic Gregorian ordinal, the value of
      Python's [date.toordinal()]; [d + timedelta(days=n)] is [d + n] and
      comparisons of dates are comparisons of ordinals.  [weekday] and
      [month] follow CPython's [datetime] module.
    - Prices, medians and means are exact rationals ([Q], compared with
      [==]); NaN, which pandas returns for the median of an empty column,
      is [None] in [option Q].  What is proved over them is structure and
      bounds that rounding does not move.  The multiplier table, the sum
      and the mean of a stay are also given in binary64 ([Module
      Binary64]), where the numbers the code returns are stated.
    - A missing cell (pandas NaN/None) of a text or price column is [None].
    - A chart is the element the script adds to the page; what Plotly
      draws from the data is outside the model. *)

From Stdlib Require Import ZArith QArith Qabs List String Bool Lia Lqa.
From Stdlib Require Import Permutation Sorted Orders Mergesort FinFun.
From Stdlib Require Import Floats Qround.
Import ListNotations.

Open Scope Z_scope.

(* ================================================================= *)
(** ** Calendar: [datetime.date] as ordinals *)

Module Calendar.

(** A date, as [date.toordinal()]: 0001-01-01 is day 1. *)
Definition date := Z.

(** [_is_leap(year)] *)
Definition is_leap (y : Z) : bool :=
  (y mod 4 =? 0) && (negb (y mod 100 =? 0) || (y mod 400 =? 0)).

(** [_days_before_year(year)] *)
Definition days_before_year (year : Z) : Z :=
  let y := year - 1 in
  y * 365 + y / 4 - y / 100 + y / 400.

(** [_DAYS_IN_MONTH[month]] *)
Definition DAYS_IN_MONTH (m : Z) : Z :=
  match m with
  | 1 => 31 | 2 => 28 | 3 => 31 | 4 => 30 | 5 => 31 | 6 => 30
  | 7 => 31 | 8 => 31 | 9 => 30 | 10 => 31 | 11 => 30 | 12 => 31
  | _ => -1
  end.

(** [_DAYS_BEFORE_MONTH[month]] *)
Definition DAYS_BEFORE_MONTH (m : Z) : Z :=
  match m with
  | 1 => 0 | 2 => 31 | 3 => 59 | 4 => 90 | 5 => 120 | 6 => 151
  | 7 => 181 | 8 => 212 | 9 => 243 | 10 => 273 | 11 => 304 | 12 => 334
  | _ => -1
  end.

Definition DI400Y : Z := 146097.
Definition DI100Y : Z := 36524.
Definition DI4Y : Z := 1461.

(** [_ymd2ord(year, month, day)] *)
Definition ymd2ord (year month day : Z) : date :=
  days_before_year year
  + (DAYS_BEFORE_MONTH month
     + (if (2 <? month) && is_leap year then 1 else 0))
  + day.

(** [_ord2ymd(n)] *)
Definition ord2ymd (n : date) : Z * Z * Z :=
  let n := n - 1 in
  let n400 := n / DI400Y in
  let n := n mod DI400Y in
  let year := n400 * 400 + 1 in
  let n100 := n / DI100Y in
  let n := n mod DI100Y in
  let n4 := n / DI4Y in
  let n := n mod DI4Y in
  let n1 := n / 365 in
  let n := n mod 365 in
  let year := year + (n100 * 100 + n4 * 4 + n1) in
  if (n1 =? 4) || (n100 =? 4) then (year - 1, 12, 31)
  else
    let leapyear := (n1 =? 3) && (negb (n4 =? 24) || (n100 =? 3)) in
    let month := Z.shiftr (n + 50) 5 in
    let preceding :=
      DAYS_BEFORE_MONTH month
      + (if (2 <? month) && leapyear then 1 else 0) in
    if n <? preceding then
      let month := month - 1 in
      let preceding :=
        preceding
        - (DAYS_IN_MONTH month
           + (if (month =? 2) && leapyear then 1 else 0)) in
      (year, month, n - preceding + 1)
    else (year, month, n - preceding + 1).

(** [d.month] *)
Definition month (d : date) : Z := snd (fst (ord2ymd d)).

(** [d.weekday()]: Monday is 0, Sunday is 6. *)
Definition weekday (d : date) : Z := (d + 6) mod 7.

End Calendar.

Import Calendar.

(** Python's [x in [a, b, ...]] on integers. *)
Definition Zin (x : Z) (l : list Z) : bool := existsb (Z.eqb x) l.

(* ================================================================= *)
(** ** Step 2 of the estimator: the per-night multiplier *)

(** [date_multiplier(d)], lines 162-173. *)
Definition date_multiplier (d : date) : Q :=
  let m := 1%Q in
  (* WEEKEND bump: Fri (4), Sat (5) *)
  let m := if Zin (weekday d) [4; 5] then (m * 1.30)%Q else m in
  (* SUMMER bump (June-Aug) *)
  let m := if Zin (month d) [6; 7; 8] then (m * 1.20)%Q else m in
  (* HOLIDAY season (December) *)
  let m := if month d =? 12 then (m * 1.40)%Q else m in
  m.

(* ================================================================= *)
(** ** The dataset *)

(** One row of the data frame read from [cleaned_data.csv]: the three
    columns the estimator reads.  [None] is a missing cell (NaN). *)
Record Listing : Type := mkListing {
  city : option string;
  room_type : option string;
  price : option Q
}.

(** The data frame: the column labels of the file and its rows.  The
    field of a row under a label that is not in [columns] is not read. *)
Record DataFrame : Type := mkDataFrame {
  columns : list string;
  rows : list Listing
}.

(** [label in df.columns] *)
Definition has_column (label : string) (df : DataFrame) : bool :=
  existsb (String.eqb label) (columns df).

(** One entry of the boolean mask [df[col] == value]: a missing cell
    equals nothing, and nothing equals [None] (the value of an empty
    select box). *)
Definition cell_eqb (cell value : option string) : bool :=
  match cell, value with
  | Some a, Some b => String.eqb a b
  | _, _ => false
  end.

(* ================================================================= *)
(** ** [Series.median()] *)

Lemma Qle_bool_total (x y : Q) : Qle_bool x y = true \/ Qle_bool y x = true.
Proof.
  rewrite !Qle_bool_iff.
  destruct (Qlt_le_dec x y) as [H | H];
    [left; apply Qlt_le_weak, H | right; exact H].
Qed.

Module QOrder <: TotalLeBool.
Definition t := Q.
Definition leb := Qle_bool.
Definition leb_total := Qle_bool_total.
End QOrder.

Module QSort := Sort QOrder.

(** [Series.dropna()] on a numeric column. *)
Fixpoint dropna {A : Type} (col : list (option A)) : list A :=
  match col with
  | [] => []
  | Some x :: col' => x :: dropna col'
  | None :: col' => dropna col'
  end.

(** The median of the sorted values [s]: the middle one, or the midpoint
    of the two middle ones; NaN when there is none. *)
Definition median_sorted (s : list Q) : option Q :=
  let n := List.length s in
  if (n =? 0)%nat then None
  else if Nat.even n
       then Some ((nth (n / 2 - 1) s 0 + nth (n / 2) s 0) / 2)%Q
       else Some (nth (n / 2) s 0%Q).

(** [Series.median()] with the default [skipna=True]. *)
Definition median (col : list (option Q)) : option Q :=
  median_sorted (QSort.sort (dropna col)).

(* ================================================================= *)
(** ** Step 1 of the estimator: the base price (lines 150-157) *)

Definition subset_city_room (df : list Listing)
    (city_val room_type_val : option string) : list Listing :=
  filter (fun r => cell_eqb (city r) city_val
                   && cell_eqb (room_type r) room_type_val) df.

Definition subset_city (df : list Listing) (city_val : option string)
    : list Listing :=
  filter (fun r => cell_eqb (city r) city_val) df.

(** The rows [subset] holds when line 157 reads it. *)
Definition base_subset (df : list Listing)
    (city_val room_type_val : option string) : list Listing :=
  let subset := subset_city_room df city_val room_type_val in
  let subset :=
    if (List.length subset =? 0)%nat then subset_city df city_val
    else subset in
  let subset :=
    if (List.length subset =? 0)%nat then df else subset in
  subset.

Definition base_price (df : list Listing)
    (city_val room_type_val : option string) : option Q :=
  median (map price (base_subset df city_val room_type_val)).

(* ================================================================= *)
(** ** Steps 2 and 3: the nights of the stay and their mean multiplier *)

(** [pd.date_range(start, end)]: the days from [start] to [end], both
    included; empty when [end] is before [start]. *)
Definition date_range (start stop : date) : list date :=
  map (fun i => start + Z.of_nat i) (seq 0 (Z.to_nat (stop - start + 1))).

(** Line 160. *)
Definition stay_dates (check_in check_out : date) : list date :=
  date_range check_in (check_out - 1).

(** Python's [sum]: a left fold that starts at 0. *)
Definition py_sum (l : list Q) : Q := fold_left Qplus l 0%Q.

(** Lines 175-179. *)
Definition avg_mult (check_in check_out : date) : Q :=
  let stay := stay_dates check_in check_out in
  if (0 <? List.length stay)%nat then
    let mults := map date_multiplier stay in
    (py_sum mults / inject_Z (Z.of_nat (List.length mults)))%Q
  else 1%Q.

(** Line 181; NaN times anything is NaN. *)
Definition adjusted_price (df : list Listing)
    (city_val room_type_val : option string)
    (check_in check_out : date) : option Q :=
  match base_price df city_val room_type_val with
  | Some b => Some (b * avg_mult check_in check_out)%Q
  | None => None
  end.

(** Line 182. *)
Definition nights (check_in check_out : date) : Z := check_out - check_in.

(* ================================================================= *)
(** ** The page the script renders *)

(** What a run of the script puts on the page, one constructor per
    Streamlit call.  A chart is named by its title (its figure is the
    plotting library's business); the success box carries the numbers
    its message formats. *)
Inductive element : Type :=
| st_title (text : string)
| st_error (msg : string)
| st_write (n_rows n_columns : nat)
| st_dataframe (head : list Listing)
| st_subheader (text : string)
| st_markdown (text : string)
| st_plotly_chart (title : string)
| st_info (msg : string)
| st_selectbox (label : string) (options : list string)
| st_date_input (label : string) (value : date)
| st_warning (msg : string)
| st_button (label : string)
| st_success (adjusted_price : option Q)
             (room_type_val city_val : option string) (nights : Z).

(** How a run ends: at the end of the script, at [st.stop()], or with an
    uncaught exception. *)
Inductive outcome : Type :=
| Completed (page : list element)
| Stopped (page : list element)
| Raised (exc : string) (page : list element).

(** What the user has set on the page when the script runs: the entry
    picked in each select box (an index into its options, 0 at first),
    the check-in date (today at first), the check-out date ([None] while
    the widget is left on its default) and whether the button was just
    pressed. *)
Record Session : Type := mkSession {
  city_choice : nat;
  room_type_choice : nat;
  check_in_input : date;
  check_out_input : option date;
  clicked : bool
}.

Module StringOrder <: TotalLeBool.
Definition t := string.
Definition leb := String.leb.
Definition leb_total := String.leb_total.
End StringOrder.

Module StringSort := Sort StringOrder.

(** [Series.unique()]: the first occurrence of each value, in order. *)
Fixpoint unique (l : list string) : list string :=
  match l with
  | [] => []
  | x :: l' => x :: filter (fun y => negb (String.eqb x y)) (unique l')
  end.

(** [sorted(df[col].dropna().unique())] *)
Definition select_options (col : list (option string)) : list string :=
  StringSort.sort (unique (dropna col)).

(** [st.selectbox]: the picked option, [None] when there is none to pick. *)
Definition selectbox (options : list string) (choice : nat) : option string :=
  nth_error options choice.

Definition DATA_PATH : string := "cleaned_data.csv".

(** Lines 11-30: the load; a missing file ([None]) is reported and the
    script stops.  [run_script] below covers every failure of the
    load. *)
Definition load_section (file : option DataFrame) : list element + DataFrame :=
  match file with
  | None =>
      inl [st_error ("Could not find '" ++ DATA_PATH ++ "'. "
                     ++ "Place cleaned_data.csv in the same folder as this script.")%string]
  | Some df => inr df
  end.

(** Lines 32-114: the four charts.  Chart 1 reads [df["price"]] without a
    guard; charts 2-4 are guarded by their column. *)
Definition chart_room_type (df : DataFrame) : list element :=
  (if has_column "room_type" df then
     [st_markdown "### 2. Average price by room type";
      st_plotly_chart "Average nightly price by room type"]
   else [st_info "Column 'room_type' not found – skipping room-type chart."])
  ++
  (if has_column "room_type" df then
     [st_markdown "### 3. Share of listings by room type";
      st_plotly_chart "Listing share by room type"]
   else []).

Definition chart_city (df : DataFrame) : list element :=
  if has_column "city" df then
    [st_markdown "### 4. Top 10 cities by average price";
     st_plotly_chart "Top 10 cities by average nightly price"]
  else [st_info "Column 'city' not found – skipping city chart."].

Definition charts (df : DataFrame) : list element :=
  [st_subheader "📊 Airbnb Price Visualizations";
   st_markdown "### 1. Price distribution";
   st_plotly_chart "Nightly price distribution (capped at 99th percentile)"]
  ++ chart_room_type df ++ chart_city df.

(** Lines 145-189: the date guard, the button and the estimate. *)
Definition estimate_action (df : DataFrame) (city_val room_type_val : option string)
    (check_in check_out : date) (pressed : bool) : list element :=
  if check_out <=? check_in then
    [st_warning "Check-out date must be after check-in date."]
  else
    st_button "Get date-aware price per night" ::
    (if pressed then
       [st_success
          (adjusted_price (rows df) city_val room_type_val check_in check_out)
          room_type_val city_val (nights check_in check_out)]
     else []).

(** Lines 116-192: the predictor section. *)
Definition predictor (df : DataFrame) (s : Session) : list element :=
  st_subheader "🧮 Date-aware price per night prediction" ::
  if has_column "city" df && has_column "room_type" df then
    let city_options := select_options (map city (rows df)) in
    let city_val := selectbox city_options (city_choice s) in
    let room_options := select_options (map room_type (rows df)) in
    let room_type_val := selectbox room_options (room_type_choice s) in
    let check_in := check_in_input s in
    let check_out :=
      match check_out_input s with
      | Some d => d
      | None => check_in + 1
      end in
    [st_selectbox "City" city_options;
     st_selectbox "Room type" room_options;
     st_date_input "Check-in date" check_in;
     st_date_input "Check-out date" check_out]
    ++ estimate_action df city_val room_type_val check_in check_out (clicked s)
  else [st_info "Need 'city' and 'room_type' columns to run the predictor."].

(** The whole script. *)
Definition dashboard (file : option DataFrame) (s : Session) : outcome :=
  let page := [st_title "🏠 Airbnb Simple Dashboard"] in
  match load_section file with
  | inl err => Stopped (page ++ err)
  | inr df =>
      let page :=
        page ++ [st_write (List.length (rows df)) (List.length (columns df));
                 st_dataframe (firstn 5 (rows df))] in
      if negb (has_column "price" df) then
        Raised "KeyError: 'price'"
               (page ++ [st_subheader "📊 Airbnb Price Visualizations";
                         st_markdown "### 1. Price distribution"])
      else Completed (page ++ charts df ++ predictor df s)
  end.

(** How [load_data(DATA_PATH)] ends: with the data frame, or with an
    exception, whose text the handler of lines 25-27 shows. *)
Inductive load_outcome : Type :=
| Loaded (df : DataFrame)
| LoadRaised (msg : string).

(** Lines 14-21.  [path_exists] is [os.path.exists(path)]; [read_csv] is
    how [pd.read_csv(path)] ends on a file that exists: it raises on an
    empty or malformed one. *)
Definition load_data (path_exists : bool) (read_csv : load_outcome)
    : load_outcome :=
  if path_exists then read_csv
  else LoadRaised ("Could not find '" ++ DATA_PATH ++ "'. "
                   ++ "Place cleaned_data.csv in the same folder as this script.")%string.

(** The script on the outcome of the load: lines 23-27 catch every
    exception of the load, show its text and stop; otherwise the script
    goes on as [dashboard] does on the frame. *)
Definition run_script (load : load_outcome) (s : Session) : outcome :=
  match load with
  | LoadRaised msg =>
      Stopped [st_title "🏠 Airbnb Simple Dashboard"; st_error msg]
  | Loaded df => dashboard (Some df) s
  end.

(* ================================================================= *)
(** ** The data behind the charts (lines 38-102) *)

(** [Series.quantile(q)] with the default linear interpolation: missing
    values are skipped; the result sits at position [q * (n - 1)] of the
    [n] sorted values, between its two neighbours; NaN when there is no
    value. *)
Definition quantile (q : Q) (col : list (option Q)) : option Q :=
  let v := QSort.sort (dropna col) in
  let n := List.length v in
  if (n =? 0)%nat then None
  else
    let h := (q * inject_Z (Z.of_nat (n - 1)))%Q in
    let j := Z.to_nat (Qfloor h) in
    let g := (h - inject_Z (Qfloor h))%Q in
    Some (nth j v 0 + (nth (Nat.min (j + 1) (n - 1)) v 0 - nth j v 0) * g)%Q.

(** One entry of the mask [df["price"] <= price_cap]: false on a missing
    price and against a NaN cap. *)
Definition le_cell (cell cap : option Q) : bool :=
  match cell, cap with
  | Some p, Some c => Qle_bool p c
  | _, _ => false
  end.

(** Line 38. *)
Definition price_cap (df : list Listing) : option Q :=
  quantile 0.99 (map price df).

(** Line 39. *)
Definition df_price (df : list Listing) : list Listing :=
  filter (fun r => le_cell (price r) (price_cap df)) df.

(** [Series.mean()]: missing values are skipped; NaN when none is left. *)
Definition mean_skipna (col : list (option Q)) : option Q :=
  let v := dropna col in
  if (List.length v =? 0)%nat then None
  else Some (py_sum v / inject_Z (Z.of_nat (List.length v)))%Q.

(** The rows of one group of [df.groupby(key)]. *)
Definition group (key : Listing -> option string) (k : string)
    (df : list Listing) : list Listing :=
  filter (fun r => cell_eqb (key r) (Some k)) df.

(** [df.groupby(key)["price"].mean().reset_index()]: one row per value
    of the key column, in ascending order of the value, with the mean
    price of its group; a row with a missing key is in no group. *)
Definition groupby_mean (key : Listing -> option string)
    (df : list Listing) : list (string * option Q) :=
  map (fun k => (k, mean_skipna (map price (group key k df))))
      (select_options (map key df)).

(** Where [sort_values("price", ascending=False)] may leave [x] before
    [y]: the larger price first, NaN last. *)
Definition price_desc (x y : string * option Q) : Prop :=
  match snd x, snd y with
  | Some a, Some b => (b <= a)%Q
  | _, None => True
  | None, Some _ => False
  end.

(** What [sort_values("price", ascending=False)] may return for [table]:
    the same rows in descending order of the price, NaN last.  The order
    of rows with equal prices is the sorting algorithm's. *)
Definition sort_values_desc (table out : list (string * option Q)) : Prop :=
  Permutation table out /\ StronglySorted price_desc out.

(** Lines 54-59: the table of the room-type bar chart. *)
Definition room_price (df : list Listing)
    (out : list (string * option Q)) : Prop :=
  sort_values_desc (groupby_mean room_type df) out.

(** Lines 96-102: the table of the city bar chart, [head(10)] of the
    sorted means. *)
Definition city_price (df : list Listing)
    (out : list (string * option Q)) : Prop :=
  exists sorted,
    sort_values_desc (groupby_mean city df) sorted /\ out = firstn 10 sorted.

(** [price_desc] as a test. *)
Definition price_desc_b (x y : string * option Q) : bool :=
  match snd x, snd y with
  | Some a, Some b => Qle_bool b a
  | _, None => true
  | None, Some _ => false
  end.

Lemma price_desc_b_total (x y : string * option Q) :
  price_desc_b x y = true \/ price_desc_b y x = true.
Proof.
  unfold price_desc_b. destruct (snd x) as [a |], (snd y) as [b |]; auto.
  destruct (Qle_bool_total b a); auto.
Qed.

Module PriceDescOrder <: TotalLeBool.
Definition t := (string * option Q)%type.
Definition leb := price_desc_b.
Definition leb_total := price_desc_b_total.
End PriceDescOrder.

(** One sort that [sort_values_desc] admits: a stable merge sort. *)
Module PriceDescSort := Sort PriceDescOrder.

(** The counts of [Series.value_counts()]: each value that is not
    missing with the number of its cells. *)
Definition value_counts (col : list (option string)) : list (string * nat) :=
  map (fun k => (k, List.length (filter (fun c => cell_eqb c (Some k)) col)))
      (unique (dropna col)).

(** Lines 77-79: the table of the pie chart, the counts in descending
    order (the order of equal counts is the sorting algorithm's). *)
Definition room_counts (df : list Listing)
    (out : list (string * nat)) : Prop :=
  Permutation (value_counts (map room_type df)) out
  /\ StronglySorted (fun x y => (snd y <= snd x)%nat) out.

(* ================================================================= *)
(** ** The multiplier in binary64 arithmetic *)

Module Binary64.

#[local] Set Warnings "-inexact-float".

(** [date_multiplier(d)] with Python's floats: the literals are rounded
    to the nearest binary64 value and [*=] is the IEEE 754 product. *)
Definition date_multiplier_b64 (d : date) : float :=
  let m := 1.0%float in
  let m := if Zin (weekday d) [4; 5] then (m * 1.30)%float else m in
  let m := if Zin (month d) [6; 7; 8] then (m * 1.20)%float else m in
  let m := if month d =? 12 then (m * 1.40)%float else m in
  m.

(** The rational a finite binary64 value stands for. *)
Definition to_Q (f : float) : option Q :=
  match Prim2SF f with
  | S754_zero _ => Some 0%Q
  | S754_finite s m e =>
      Some ((if s then -1 else 1) * inject_Z (Zpos m) * Qpower 2 e)%Q
  | _ => None
  end.

(** One unit in the last place of a binary64 value in [1, 2). *)
Definition ulp1 : Q := Qpower 2 (-52).

(** One factor of the multiplier in binary64: [f] when its condition
    holds, 1.0 otherwise. *)
Definition factor_b64 (condition : bool) (f : float) : float :=
  if condition then f else 1.0%float.

(** The values the multiplier table can produce, as binary64 numbers. *)
Definition multiplier_values_b64 : list float :=
  [1.0; 1.2; 1.3; 1.4; 1.56; 1.30 * 1.40]%float.

(** The six numbers of the rounded-decimal reading of the table. *)
Definition multiplier_literals_b64 : list float :=
  [1.0; 1.2; 1.3; 1.4; 1.56; 1.82]%float.

(** Python's [sum] on floats (CPython up to 3.11): a left fold of
    binary64 additions from 0. *)
Definition py_sum_b64 (l : list float) : float :=
  fold_left PrimFloat.add l 0%float.

(** [len(mults)] as the float the division converts it to. *)
Definition float_of_len (n : nat) : float :=
  PrimFloat.of_uint63 (Uint63.of_Z (Z.of_nat n)).

(** Lines 175-179 in binary64. *)
Definition avg_mult_b64 (check_in check_out : date) : float :=
  let stay := stay_dates check_in check_out in
  if (0 <? List.length stay)%nat then
    let mults := map date_multiplier_b64 stay in
    (py_sum_b64 mults / float_of_len (List.length mults))%float
  else 1.0%float.

(** Line 181 in binary64, for a base price that is a number. *)
Definition adjusted_price_b64 (base_price : float)
    (check_in check_out : date) : float :=
  (base_price * avg_mult_b64 check_in check_out)%float.

End Binary64.

(* ================================================================= *)
(** ** The words of the specification *)

(** [f] holds of the [len] days from [lo] on. *)
Fixpoint all_days (f : date -> bool) (lo : date) (len : nat) : bool :=
  match len with
  | O => true
  | S len' => f lo && all_days f (lo + 1) len'
  end.


(** "d falls on Friday or Saturday" *)
Definition friday_or_saturday (d : date) : bool :=
  (weekday d =? 4) || (weekday d =? 5).

(** "d's month is June, July, or August" *)
Definition summer (d : date) : bool :=
  (month d =? 6) || (month d =? 7) || (month d =? 8).

(** "d's month is December" *)
Definition december (d : date) : bool := month d =? 12.

(** One independent factor of the multiplier: [f] when its condition
    holds, 1 otherwise. *)
Definition factor (condition : bool) (f : Q) : Q :=
  if condition then f else 1%Q.

(** The arithmetic mean of a list of rationals. *)
Definition arithmetic_mean (l : list Q) : Q :=
  (fold_right Qplus 0 l / inject_Z (Z.of_nat (List.length l)))%Q.

(** "price values are non-negative reals": every price cell holds a
    number, and none is negative. *)
Definition non_negative_prices (df : list Listing) : Prop :=
  Forall (fun r => exists p, price r = Some p /\ (0 <= p)%Q) df.

(** Equality of estimates: NaN with NaN, numbers as rationals. *)
Definition same_price (x y : option Q) : Prop :=
  match x, y with
  | Some a, Some b => (a == b)%Q
  | None, None => True
  | _, _ => False
  end.

(** The element is an error box. *)
Definition is_error (e : element) : bool :=
  match e with st_error _ => true | _ => false end.

(** The element is the estimate's success box. *)
Definition is_estimate (e : element) : bool :=
  match e with st_success _ _ _ _ => true | _ => false end.

(** The element is one of the estimator's controls: a select box, a date
    picker or the button. *)
Definition is_estimator_control (e : element) : bool :=
  match e with
  | st_selectbox _ _ | st_date_input _ _ | st_button _ => true
  | _ => false
  end.

(** The element is the button that triggers the estimate. *)
Definition is_button (e : element) : bool :=
  match e with st_button _ => true | _ => false end.

(** The element is a warning box. *)
Definition is_warning (e : element) : bool :=
  match e with st_warning _ => true | _ => false end.

(** The element is a chart. *)
Definition is_chart (e : element) : bool :=
  match e with st_plotly_chart _ => true | _ => false end.

(** The sum of a list of rationals. *)
Definition Qsum (l : list Q) : Q := fold_right Qplus 0%Q l.

(** The check-out date the script reads: the picked one, or the
    picker's default. *)
Definition check_out_of (s : Session) : date :=
  match check_out_input s with
  | Some d => d
  | None => check_in_input s + 1
  end.

(** The run ended with an uncaught exception. *)
Definition raised (o : outcome) : bool :=
  match o with Raised _ _ => true | _ => false end.

(** An error is surfaced on the page or raised to the caller. *)
Definition surfaces_error (o : outcome) : Prop :=
  match o with
  | Completed page | Stopped page => existsb is_error page = true
  | Raised _ _ => True
  end.

(** The page of a run, however it ended. *)
Definition page_of (o : outcome) : list element :=
  match o with
  | Completed page | Stopped page | Raised _ page => page
  end.

(** The scenario dataset of the specification's testable properties. *)
Definition scenario_df : list Listing :=
  [ mkListing (Some "A"%string) (Some "Entire home"%string) (Some 100%Q);
    mkListing (Some "A"%string) (Some "Private room"%string) (Some 50%Q);
    mkListing (Some "B"%string) (Some "Entire home"%string) (Some 200%Q) ].

(* ================================================================= *)
(** ** Ranges of dates *)

Lemma In_date_range (a b d : date) : In d (date_range a b) <-> a <= d <= b.
Proof.
  unfold date_range. rewrite in_map_iff. split.
  - intros (i & <- & Hi). apply in_seq in Hi. lia.
  - intros H. exists (Z.to_nat (d - a)). split; [lia | apply in_seq; lia].
Qed.

Lemma length_date_range (a b : date) :
  List.length (date_range a b) = Z.to_nat (b - a + 1).
Proof. unfold date_range. now rewrite length_map, length_seq. Qed.

Lemma NoDup_date_range (a b : date) : NoDup (date_range a b).
Proof.
  unfold date_range. apply Finite.Injective_map_NoDup.
  - intros i j H. lia.
  - apply seq_NoDup.
Qed.

(* ================================================================= *)
(** ** The calendar on the dates a date picker offers *)

Lemma all_days_spec (f : date -> bool) (len : nat) :
  forall lo n,
    all_days f lo len = true -> lo <= n < lo + Z.of_nat len -> f n = true.
Proof.
  induction len as [| len IH]; intros lo n Hall Hn; [lia |].
  cbn [all_days] in Hall. apply andb_true_iff in Hall. destruct Hall as [H0 H1].
  destruct (Z.eq_dec n lo) as [-> | Hne]; [exact H0 |].
  apply (IH (lo + 1)); [exact H1 | lia].
Qed.

(** Every ordinal of the years 2000 to 2050 denotes a date whose month is
    between 1 and 12, and [ymd2ord] takes that date back to the ordinal. *)
Lemma ord2ymd_ymd2ord (n : date) :
  ymd2ord 2000 1 1 <= n <= ymd2ord 2050 12 31 ->
  let '(y, m, d) := ord2ymd n in
  ymd2ord y m d = n /\ 1 <= m <= 12 /\ 2000 <= y <= 2050.
Proof.
  intro H.
  pose (ok := fun n => let '(y, m, d) := ord2ymd n in
                       (ymd2ord y m d =? n) && (1 <=? m) && (m <=? 12)
                       && (2000 <=? y) && (y <=? 2050)).
  assert (Hall : all_days ok 730120 (Z.to_nat 18628) = true)
    by (vm_compute; reflexivity).
  assert (Hn : ok n = true).
  { apply (all_days_spec ok _ _ n Hall).
    change (ymd2ord 2000 1 1) with 730120 in H.
    change (ymd2ord 2050 12 31) with 748747 in H.
    rewrite Z2Nat.id by lia. lia. }
  unfold ok in Hn. destruct (ord2ymd n) as [[y m] d].
  rewrite !andb_true_iff in Hn. lia.
Qed.

(** The days of the specification's scenarios. *)
Example tuesday_2_january_2024 :
  weekday (ymd2ord 2024 1 2) = 1 /\ month (ymd2ord 2024 1 2) = 1.
Proof. split; reflexivity. Qed.

Example saturday_7_december_2024 :
  weekday (ymd2ord 2024 12 7) = 5 /\ month (ymd2ord 2024 12 7) = 12.
Proof. split; reflexivity. Qed.

Example friday_5_july_2024 :
  weekday (ymd2ord 2024 7 5) = 4 /\ month (ymd2ord 2024 7 5) = 7
  /\ (date_multiplier (ymd2ord 2024 7 5) == 1.56)%Q.
Proof. repeat split. Qed.

(* ================================================================= *)
(** ** The per-night multiplier *)

Lemma Zin_weekend (d : date) : Zin (weekday d) [4; 5] = friday_or_saturday d.
Proof.
  unfold Zin, friday_or_saturday. simpl. now rewrite orb_false_r.
Qed.

Lemma Zin_summer (d : date) : Zin (month d) [6; 7; 8] = summer d.
Proof.
  unfold Zin, summer. simpl. now rewrite orb_false_r, orb_assoc.
Qed.

Lemma date_multiplier_factors (d : date) :
  (date_multiplier d ==
   factor (friday_or_saturday d) 1.30 * factor (summer d) 1.20
   * factor (december d) 1.40)%Q.
Proof.
  unfold date_multiplier. rewrite Zin_weekend, Zin_summer.
  fold (december d).
  destruct (friday_or_saturday d), (summer d), (december d);
    unfold factor; ring.
Qed.

(** Summer and December exclude each other: a date has one month. *)
Lemma summer_not_december (d : date) : summer d && december d = false.
Proof.
  unfold summer, december.
  destruct (month d =? 12) eqn:E; [| now rewrite andb_false_r].
  apply Z.eqb_eq in E. rewrite E. reflexivity.
Qed.

(* ================================================================= *)
(** ** The nights of the stay, continued *)

Lemma length_stay_dates (check_in check_out : date) :
  List.length (stay_dates check_in check_out) = Z.to_nat (check_out - check_in).
Proof.
  unfold stay_dates. rewrite length_date_range. f_equal. lia.
Qed.

Lemma In_stay_dates (check_in check_out d : date) :
  In d (stay_dates check_in check_out) <-> check_in <= d < check_out.
Proof. unfold stay_dates. rewrite In_date_range. lia. Qed.

(** C3.  When check-out is strictly after check-in, the nights the
    estimator enumerates are exactly the dates of the half-open interval
    from check-in to check-out, each once and in order: check-in is in,
    the day before check-out is in, check-out is not, and a stay from
    [x] to [x + 1] has the one night [x]. *)
Theorem stay_dates_half_open : forall check_in check_out : date,
  check_in < check_out ->
  (forall d, In d (stay_dates check_in check_out) <-> check_in <= d < check_out)
  /\ NoDup (stay_dates check_in check_out)
  /\ stay_dates check_in check_out
     = map (fun i => check_in + Z.of_nat i)
           (seq 0 (Z.to_nat (check_out - check_in)))
  /\ In check_in (stay_dates check_in check_out)
  /\ In (check_out - 1) (stay_dates check_in check_out)
  /\ ~ In check_out (stay_dates check_in check_out)
  /\ stay_dates check_in (check_in + 1) = [check_in].
Proof.
  intros ci co Hlt.
  pose proof (In_stay_dates ci co) as Hin.
  split; [exact Hin |].
  split; [apply NoDup_date_range |].
  split; [unfold stay_dates, date_range; do 2 f_equal; lia |].
  split; [apply Hin; lia |].
  split; [apply Hin; lia |].
  split; [rewrite Hin; lia |].
  unfold stay_dates, date_range.
  replace (ci + 1 - 1 - ci + 1) with 1 by lia. simpl. f_equal. lia.
Qed.

(** A one-night stay from Tuesday 2 January 2024. *)
Lemma stay_dates_half_open_witness :
  stay_dates (ymd2ord 2024 1 2) (ymd2ord 2024 1 3) = [ymd2ord 2024 1 2].
Proof.
  assert (H : ymd2ord 2024 1 2 < ymd2ord 2024 1 3) by (vm_compute; reflexivity).
  destruct (stay_dates_half_open _ _ H) as (_ & _ & E & _).
  rewrite E. reflexivity.
Defined.

(* ================================================================= *)
(** ** Sums and means of rationals *)

Lemma inject_Z_of_nat_S (n : nat) :
  (inject_Z (Z.of_nat (S n)) == inject_Z (Z.of_nat n) + 1)%Q.
Proof.
  rewrite Nat2Z.inj_succ. unfold Z.succ. now rewrite inject_Z_plus.
Qed.

Lemma inject_Z_of_nat_pos (n : nat) :
  (0 < n)%nat -> (0 < inject_Z (Z.of_nat n))%Q.
Proof.
  intro H. change 0%Q with (inject_Z 0). rewrite <- Zlt_Qlt. lia.
Qed.

Lemma py_sum_from (l : list Q) (a : Q) :
  (fold_left Qplus l a == a + fold_right Qplus 0 l)%Q.
Proof.
  revert a. induction l as [| x l IH]; intro a; simpl.
  - ring.
  - rewrite IH. ring.
Qed.

(** Python's left-to-right [sum] is the sum of the list. *)
Lemma py_sum_fold_right (l : list Q) : (py_sum l == fold_right Qplus 0 l)%Q.
Proof. unfold py_sum. rewrite py_sum_from. ring. Qed.

Lemma sum_bounds (lo hi : Q) (l : list Q) :
  (forall x, In x l -> (lo <= x <= hi)%Q) ->
  (inject_Z (Z.of_nat (List.length l)) * lo <= fold_right Qplus 0 l
   /\ fold_right Qplus 0 l <= inject_Z (Z.of_nat (List.length l)) * hi)%Q.
Proof.
  induction l as [| x l IH]; intro H.
  - cbn [List.length fold_right]. change (inject_Z (Z.of_nat 0)) with 0%Q.
    split; lra.
  - destruct IH as [IH1 IH2]; [intros y Hy; apply H; now right |].
    destruct (H x (or_introl eq_refl)) as [Hx1 Hx2].
    cbn [List.length fold_right]. rewrite inject_Z_of_nat_S. split; lra.
Qed.

Lemma mean_bounds (lo hi : Q) (l : list Q) :
  l <> [] ->
  (forall x, In x l -> (lo <= x <= hi)%Q) ->
  (lo <= arithmetic_mean l <= hi)%Q.
Proof.
  intros Hne H. destruct (sum_bounds lo hi l H) as [H1 H2].
  assert (Hn : (0 < inject_Z (Z.of_nat (List.length l)))%Q).
  { apply inject_Z_of_nat_pos. destruct l; [congruence | simpl; lia]. }
  unfold arithmetic_mean. split.
  - apply Qle_shift_div_l; [exact Hn | lra].
  - apply Qle_shift_div_r; [exact Hn | lra].
Qed.

Lemma mean_constant (m : Q) (l : list Q) :
  l <> [] -> (forall x, In x l -> (x == m)%Q) -> (arithmetic_mean l == m)%Q.
Proof.
  intros Hne H. apply Qle_antisym; apply (mean_bounds m m l Hne);
    intros x Hx; rewrite (H x Hx); split; apply Qle_refl.
Qed.

(* ================================================================= *)
(** ** The mean multiplier of a stay *)

Lemma date_multiplier_values (d : date) :
  (date_multiplier d == 1.0 \/ date_multiplier d == 1.2
   \/ date_multiplier d == 1.3 \/ date_multiplier d == 1.4
   \/ date_multiplier d == 1.56 \/ date_multiplier d == 1.82)%Q.
Proof.
  pose proof (date_multiplier_factors d) as F.
  pose proof (summer_not_december d) as X.
  destruct (friday_or_saturday d), (summer d), (december d);
    try discriminate X; unfold factor in F; rewrite F.
  - do 4 right. left. ring.
  - do 5 right. ring.
  - do 2 right. left. ring.
  - right. left. ring.
  - do 3 right. left. ring.
  - left. ring.
Qed.

Lemma date_multiplier_bounds (d : date) :
  (1.0 <= date_multiplier d <= 1.82)%Q.
Proof.
  destruct (date_multiplier_values d) as [H | [H | [H | [H | [H | H]]]]];
    rewrite H; split; unfold Qle; simpl; lia.
Qed.

Lemma stay_dates_nonempty (check_in check_out : date) :
  check_in < check_out -> stay_dates check_in check_out <> [].
Proof.
  intros Hlt E. apply (f_equal (@List.length date)) in E.
  rewrite length_stay_dates in E. simpl in E. lia.
Qed.

Lemma stay_dates_empty (check_in check_out : date) :
  check_out <= check_in -> stay_dates check_in check_out = [].
Proof.
  intro H. apply length_zero_iff_nil. rewrite length_stay_dates. lia.
Qed.

Lemma avg_mult_mean (check_in check_out : date) :
  stay_dates check_in check_out <> [] ->
  (avg_mult check_in check_out
   == arithmetic_mean (map date_multiplier (stay_dates check_in check_out)))%Q.
Proof.
  intro Hne. unfold avg_mult, arithmetic_mean.
  destruct (stay_dates check_in check_out) as [| d l]; [congruence |].
  cbn [List.length Nat.ltb Nat.leb]. now rewrite py_sum_fold_right.
Qed.

Lemma avg_mult_default (check_in check_out : date) :
  stay_dates check_in check_out = [] -> avg_mult check_in check_out = 1%Q.
Proof. intro E. unfold avg_mult. now rewrite E. Qed.

Lemma avg_mult_bounds (check_in check_out : date) :
  (1.0 <= avg_mult check_in check_out <= 1.82)%Q.
Proof.
  destruct (stay_dates check_in check_out) as [| d l] eqn:E.
  - rewrite (avg_mult_default _ _ E). split; unfold Qle; simpl; lia.
  - rewrite avg_mult_mean by (rewrite E; discriminate).
    apply mean_bounds.
    + rewrite E. discriminate.
    + intros x Hx. apply in_map_iff in Hx. destruct Hx as (d' & <- & _).
      apply date_multiplier_bounds.
Qed.

(** C8.  When check-out is strictly after check-in the list of stay
    dates is not empty, so the test of line 175 succeeds and the mean is
    taken; the test fails, and the multiplier defaults to 1.0, exactly
    when check-out is not after check-in. *)
Theorem zero_nights_branch_unreachable : forall check_in check_out : date,
  (check_in < check_out ->
     stay_dates check_in check_out <> []
     /\ (0 <? List.length (stay_dates check_in check_out))%nat = true
     /\ (avg_mult check_in check_out
         == arithmetic_mean
              (map date_multiplier (stay_dates check_in check_out)))%Q)
  /\ ((0 <? List.length (stay_dates check_in check_out))%nat = false
      <-> check_out <= check_in)
  /\ (check_out <= check_in -> (avg_mult check_in check_out == 1.0)%Q).
Proof.
  intros ci co. split; [| split].
  - intro Hlt. pose proof (stay_dates_nonempty ci co Hlt) as Hne.
    split; [exact Hne |]. split; [| now apply avg_mult_mean].
    apply Nat.ltb_lt. rewrite length_stay_dates. lia.
  - rewrite Nat.ltb_ge, length_stay_dates. lia.
  - intro H. rewrite avg_mult_default by now apply stay_dates_empty.
    reflexivity.
Qed.

(** Thursday 4 to Saturday 6 January 2024 inside the precondition; the
    same day twice outside it. *)
Lemma zero_nights_branch_unreachable_witness :
  stay_dates (ymd2ord 2024 1 4) (ymd2ord 2024 1 6) <> []
  /\ (avg_mult (ymd2ord 2024 1 5) (ymd2ord 2024 1 5) == 1.0)%Q.
Proof.
  split.
  - apply (proj1 (zero_nights_branch_unreachable
                    (ymd2ord 2024 1 4) (ymd2ord 2024 1 6))).
    vm_compute. reflexivity.
  - apply (proj2 (proj2 (zero_nights_branch_unreachable
                           (ymd2ord 2024 1 5) (ymd2ord 2024 1 5)))).
    vm_compute. discriminate.
Defined.

(* ================================================================= *)
(** ** The median *)

Lemma In_dropna {A : Type} (col : list (option A)) (x : A) :
  In x (dropna col) <-> In (Some x) col.
Proof.
  induction col as [| [y |] col IH]; simpl.
  - tauto.
  - rewrite IH. split; intros [H | H]; auto; left; congruence.
  - rewrite IH. split; [auto | intros [H | H]; [discriminate | exact H]].
Qed.

Lemma In_sort (l : list Q) (x : Q) : In x (QSort.sort l) <-> In x l.
Proof.
  split; apply Permutation_in;
    [apply Permutation_sym |]; apply QSort.Permuted_sort.
Qed.

Lemma length_sort (l : list Q) : List.length (QSort.sort l) = List.length l.
Proof. apply Permutation_length, Permutation_sym, QSort.Permuted_sort. Qed.

Lemma nth_nonneg (s : list Q) (i : nat) :
  (forall x, In x s -> (0 <= x)%Q) -> (0 <= nth i s 0)%Q.
Proof.
  intro H. destruct (nth_in_or_default i s 0%Q) as [Hin | ->].
  - now apply H.
  - apply Qle_refl.
Qed.

Lemma median_sorted_nonneg (s : list Q) :
  s <> [] -> (forall x, In x s -> (0 <= x)%Q) ->
  exists m, median_sorted s = Some m /\ (0 <= m)%Q.
Proof.
  intros Hne H. unfold median_sorted.
  assert (Hn : (List.length s =? 0)%nat = false).
  { apply Nat.eqb_neq. destruct s; [congruence | discriminate]. }
  rewrite Hn.
  pose proof (nth_nonneg s (List.length s / 2 - 1) H) as H1.
  pose proof (nth_nonneg s (List.length s / 2) H) as H2.
  destruct (Nat.even (List.length s)); eexists; (split; [reflexivity |]).
  - apply Qle_shift_div_l; lra.
  - exact H2.
Qed.

Lemma median_nonneg (col : list (option Q)) :
  (exists p, In (Some p) col) ->
  (forall p, In (Some p) col -> (0 <= p)%Q) ->
  exists m, median col = Some m /\ (0 <= m)%Q.
Proof.
  intros [p Hp] H. unfold median. apply median_sorted_nonneg.
  - intro E. apply In_dropna, In_sort in Hp. rewrite E in Hp. exact Hp.
  - intros x Hx. apply H, In_dropna, In_sort, Hx.
Qed.

(** The median of no numbers is NaN. *)
Lemma median_empty : median [] = None.
Proof. reflexivity. Qed.

(** An even count of numbers: the midpoint of the two middle ones of the
    sorted column. *)
Lemma median_even (l : list Q) (k : nat) :
  List.length l = (2 * k)%nat -> (0 < k)%nat ->
  median (map Some l)
  = Some ((nth (k - 1) (QSort.sort l) 0 + nth k (QSort.sort l) 0) / 2)%Q.
Proof.
  intros Hlen Hk. unfold median.
  replace (dropna (map Some l)) with l
    by (clear; induction l; simpl; congruence).
  unfold median_sorted. rewrite length_sort, Hlen.
  replace (2 * k =? 0)%nat with false by (symmetry; apply Nat.eqb_neq; lia).
  replace (Nat.even (2 * k)) with true
    by (symmetry; apply Nat.even_spec; now exists k).
  replace (2 * k / 2)%nat with k
    by (apply Nat.div_unique with (r := 0%nat); lia).
  reflexivity.
Qed.

(** An odd count of numbers: the middle one of the sorted column. *)
Lemma median_odd (l : list Q) (k : nat) :
  List.length l = (2 * k + 1)%nat ->
  median (map Some l) = Some (nth k (QSort.sort l) 0%Q).
Proof.
  intros Hlen. unfold median.
  replace (dropna (map Some l)) with l
    by (clear; induction l; simpl; congruence).
  unfold median_sorted. rewrite length_sort, Hlen.
  replace (2 * k + 1 =? 0)%nat with false by (symmetry; apply Nat.eqb_neq; lia).
  replace (Nat.even (2 * k + 1)) with false.
  2:{ symmetry. rewrite <- Nat.negb_odd. apply negb_false_iff.
      apply Nat.odd_spec. now exists k. }
  replace ((2 * k + 1) / 2)%nat with k
    by (apply Nat.div_unique with (r := 1%nat); lia).
  reflexivity.
Qed.

Lemma StronglySorted_sort_Qle (l : list Q) : StronglySorted Qle (QSort.sort l).
Proof.
  assert (H : StronglySorted (fun x y => is_true (Qle_bool x y)) (QSort.sort l)).
  { apply QSort.StronglySorted_sort. intros x y z Hxy Hyz.
    unfold is_true, QOrder.leb in *. rewrite Qle_bool_iff in *.
    now apply Qle_trans with y. }
  induction H as [| a s Hs IH Ha]; constructor; [exact IH |].
  apply Forall_impl with (2 := Ha). intros x Hx. now apply Qle_bool_iff.
Qed.

Lemma StronglySorted_nth (s : list Q) :
  StronglySorted Qle s ->
  forall i j, (i <= j < List.length s)%nat -> (nth i s 0 <= nth j s 0)%Q.
Proof.
  induction 1 as [| a s Hs IH Ha]; intros i j Hij; [simpl in Hij; lia |].
  simpl in Hij. destruct i as [| i], j as [| j]; simpl; try lia.
  - apply Qle_refl.
  - rewrite Forall_forall in Ha. apply Ha, nth_In. lia.
  - apply IH. lia.
Qed.

(** In exact arithmetic the value [median] returns splits the sorted
    column in the middle: the lower half is at most it, the rest is at
    least it. *)
Lemma median_splits (col : list (option Q)) (m : Q) :
  median col = Some m ->
  (forall x,
     In x (firstn (List.length (QSort.sort (dropna col)) / 2)
                  (QSort.sort (dropna col))) -> (x <= m)%Q)
  /\ (forall x,
        In x (skipn (List.length (QSort.sort (dropna col)) / 2)
                    (QSort.sort (dropna col))) -> (m <= x)%Q).
Proof.
  unfold median, median_sorted.
  pose proof (StronglySorted_sort_Qle (dropna col)) as Hs.
  set (s := QSort.sort (dropna col)) in *. set (n := List.length s).
  destruct (n =? 0)%nat eqn:En; [discriminate |].
  apply Nat.eqb_neq in En.
  assert (Hk : (n / 2 < n)%nat) by (apply Nat.div_lt; lia).
  intro Hm.
  assert (Hlow : forall x, In x (firstn (n / 2) s) ->
                 (x <= nth (n / 2 - 1) s 0 /\ x <= nth (n / 2) s 0)%Q).
  { intros x Hx. apply (In_nth _ _ 0%Q) in Hx. destruct Hx as (i & Hi & <-).
    rewrite length_firstn in Hi. rewrite nth_firstn.
    replace (i <? n / 2)%nat with true by (symmetry; apply Nat.ltb_lt; lia).
    split; apply StronglySorted_nth; try exact Hs; fold n; lia. }
  assert (Hhigh : forall x, In x (skipn (n / 2) s) ->
                  (nth (n / 2 - 1) s 0 <= x /\ nth (n / 2) s 0 <= x)%Q).
  { intros x Hx. apply (In_nth _ _ 0%Q) in Hx. destruct Hx as (i & Hi & <-).
    rewrite length_skipn in Hi. fold n in Hi. rewrite nth_skipn.
    split; apply StronglySorted_nth; try exact Hs; fold n; lia. }
  set (k := (n / 2)%nat) in *.
  destruct (Nat.even n); injection Hm as <-; split; intros x Hx.
  - destruct (Hlow x Hx). apply Qle_shift_div_l; lra.
  - destruct (Hhigh x Hx). apply Qle_shift_div_r; lra.
  - now destruct (Hlow x Hx).
  - now destruct (Hhigh x Hx).
Qed.

(* ================================================================= *)
(** ** The base price *)

Lemma cell_eqb_Some (cell : option string) (v : string) :
  cell_eqb cell (Some v) = true <-> cell = Some v.
Proof.
  destruct cell as [a |]; simpl.
  - rewrite String.eqb_eq. split; congruence.
  - split; discriminate.
Qed.

Lemma In_subset_city_room (df : list Listing) (c t : string) (r : Listing) :
  In r (subset_city_room df (Some c) (Some t))
  <-> In r df /\ city r = Some c /\ room_type r = Some t.
Proof.
  unfold subset_city_room. rewrite filter_In, andb_true_iff.
  now rewrite !cell_eqb_Some.
Qed.

Lemma In_subset_city (df : list Listing) (c : string) (r : Listing) :
  In r (subset_city df (Some c)) <-> In r df /\ city r = Some c.
Proof.
  unfold subset_city. now rewrite filter_In, cell_eqb_Some.
Qed.

Lemma nonempty_iff_inhabited {A : Type} (l : list A) :
  l <> [] <-> exists x, In x l.
Proof.
  destruct l as [| x l]; split.
  - congruence.
  - intros [x []].
  - intros _. exists x. now left.
  - discriminate.
Qed.

Lemma length_eqb_0 {A : Type} (l : list A) :
  (List.length l =? 0)%nat = match l with [] => true | _ => false end.
Proof. now destruct l. Qed.

Lemma base_subset_exact (df : list Listing) (cv rv : option string) :
  subset_city_room df cv rv <> [] ->
  base_subset df cv rv = subset_city_room df cv rv.
Proof.
  intro H. unfold base_subset. rewrite !length_eqb_0.
  destruct (subset_city_room df cv rv); [congruence | reflexivity].
Qed.

Lemma base_subset_city (df : list Listing) (cv rv : option string) :
  subset_city_room df cv rv = [] -> subset_city df cv <> [] ->
  base_subset df cv rv = subset_city df cv.
Proof.
  intros E H. unfold base_subset. rewrite E, !length_eqb_0.
  destruct (subset_city df cv); [congruence | reflexivity].
Qed.

Lemma base_subset_all (df : list Listing) (cv rv : option string) :
  subset_city df cv = [] -> base_subset df cv rv = df.
Proof.
  intros E. unfold base_subset.
  assert (E' : subset_city_room df cv rv = []).
  { unfold subset_city, subset_city_room in *.
    induction df as [| r df IH]; [reflexivity |]. simpl in *.
    destruct (cell_eqb (city r) cv); [discriminate | simpl; auto]. }
  now rewrite E', E.
Qed.

Lemma base_subset_incl (df : list Listing) (cv rv : option string) (r : Listing) :
  In r (base_subset df cv rv) -> In r df.
Proof.
  destruct (subset_city_room df cv rv) as [| r1 l1] eqn:E1.
  - destruct (subset_city df cv) as [| r2 l2] eqn:E2.
    + now rewrite base_subset_all.
    + rewrite base_subset_city by (rewrite ?E2; congruence).
      unfold subset_city. intro H. now apply filter_In in H.
  - rewrite base_subset_exact by (rewrite E1; discriminate).
    unfold subset_city_room. intro H. now apply filter_In in H.
Qed.

Lemma base_subset_nonempty (df : list Listing) (cv rv : option string) :
  df <> [] -> base_subset df cv rv <> [].
Proof.
  intro H. unfold base_subset. rewrite !length_eqb_0.
  destruct (subset_city_room df cv rv); [| discriminate].
  destruct (subset_city df cv); [exact H | discriminate].
Qed.

(** C1.  The base price follows the ordered fallback chain: the median
    price of the rows that match city and room type when there is one;
    otherwise the median price of the rows of the city when there is
    one; otherwise the median price of the whole dataset.  The median of
    an even count is the midpoint of the two middle values, so the
    scenario dataset gives 75 for city A and an unmatched room type. *)
Theorem base_price_fallback_chain : forall (df : list Listing) (c t : string),
  ((exists r, In r df /\ city r = Some c /\ room_type r = Some t) ->
     base_price df (Some c) (Some t)
     = median (map price (subset_city_room df (Some c) (Some t))))
  /\ (~ (exists r, In r df /\ city r = Some c /\ room_type r = Some t) ->
      (exists r, In r df /\ city r = Some c) ->
      base_price df (Some c) (Some t)
      = median (map price (subset_city df (Some c))))
  /\ (~ (exists r, In r df /\ city r = Some c) ->
      base_price df (Some c) (Some t) = median (map price df))
  /\ (forall r, In r (subset_city_room df (Some c) (Some t))
                <-> In r df /\ city r = Some c /\ room_type r = Some t)
  /\ (forall r, In r (subset_city df (Some c)) <-> In r df /\ city r = Some c)
  /\ (forall (l : list Q) (k : nat),
        List.length l = (2 * k)%nat -> (0 < k)%nat ->
        median (map Some l)
        = Some ((nth (k - 1) (QSort.sort l) 0 + nth k (QSort.sort l) 0) / 2)%Q)
  /\ same_price
       (base_price scenario_df (Some "A"%string) (Some "Shared room"%string))
       (Some 75%Q).
Proof.
  intros df c t.
  assert (Hboth : subset_city_room df (Some c) (Some t) <> []
                  <-> exists r, In r df /\ city r = Some c /\ room_type r = Some t).
  { rewrite nonempty_iff_inhabited.
    split; intros [r H]; exists r; now apply In_subset_city_room. }
  assert (Hcity : subset_city df (Some c) <> []
                  <-> exists r, In r df /\ city r = Some c).
  { rewrite nonempty_iff_inhabited.
    split; intros [r H]; exists r; now apply In_subset_city. }
  unfold base_price.
  split; [| split; [| split; [| split; [| split; [| split]]]]].
  - intro H. now rewrite base_subset_exact by now apply Hboth.
  - intros H1 H2. rewrite base_subset_city; [reflexivity | | now apply Hcity].
    destruct (subset_city_room df (Some c) (Some t)) eqn:E; [reflexivity |].
    exfalso. apply H1, Hboth. discriminate.
  - intros H. rewrite base_subset_all; [reflexivity |].
    destruct (subset_city df (Some c)) eqn:E; [reflexivity |].
    exfalso. apply H, Hcity. discriminate.
  - apply In_subset_city_room.
  - apply In_subset_city.
  - apply median_even.
  - vm_compute. reflexivity.
Qed.

(** The three steps of the chain on the scenario dataset: an exact
    match, a city-only match and no match at all. *)
Lemma base_price_fallback_chain_witness :
  same_price
    (base_price scenario_df (Some "A"%string) (Some "Entire home"%string))
    (Some 100%Q)
  /\ same_price
       (base_price scenario_df (Some "A"%string) (Some "Shared room"%string))
       (Some 75%Q)
  /\ same_price
       (base_price scenario_df (Some "C"%string) (Some "Entire home"%string))
       (Some 100%Q).
Proof.
  destruct (base_price_fallback_chain scenario_df "A" "Entire home")
    as (H1 & _).
  destruct (base_price_fallback_chain scenario_df "A" "Shared room")
    as (_ & H2 & _).
  destruct (base_price_fallback_chain scenario_df "C" "Entire home")
    as (_ & _ & H3 & _).
  split; [| split].
  - rewrite H1; [vm_compute; reflexivity |].
    eexists. split; [left; reflexivity | split; reflexivity].
  - rewrite H2; [vm_compute; reflexivity | |].
    + intros (r & Hin & _ & Hr).
      simpl in Hin. destruct Hin as [<- | [<- | [<- | []]]]; discriminate Hr.
    + eexists. split; [left; reflexivity | reflexivity].
  - rewrite H3; [vm_compute; reflexivity |].
    intros (r & Hin & Hr).
    simpl in Hin. destruct Hin as [<- | [<- | [<- | []]]]; discriminate Hr.
Defined.

(* ================================================================= *)
(** ** The estimate *)





(** On a dataset that is not empty and whose prices are non-negative
    numbers, the base price is a non-negative number for every query. *)
Lemma base_price_nonneg (df : list Listing) (cv rv : option string) :
  df <> [] -> non_negative_prices df ->
  exists b, base_price df cv rv = Some b /\ (0 <= b)%Q.
Proof.
  intros Hne Hprices.
  unfold non_negative_prices in Hprices. rewrite Forall_forall in Hprices.
  unfold base_price. apply median_nonneg.
  - pose proof (base_subset_nonempty df cv rv Hne) as Hsub.
    apply nonempty_iff_inhabited in Hsub. destruct Hsub as [r Hr].
    destruct (Hprices r (base_subset_incl _ _ _ _ Hr)) as (p & Hp & _).
    exists p. rewrite <- Hp. now apply in_map.
  - intros p Hp. apply in_map_iff in Hp. destruct Hp as (r & Hr & Hin).
    destruct (Hprices r (base_subset_incl _ _ _ _ Hin)) as (p' & Hp' & H0).
    congruence.
Qed.

(** C7.  For a dataset that is not empty and whose prices are all
    non-negative numbers, and check-out strictly after check-in, the
    estimate is a number and it is at least 0. *)
Theorem estimate_non_negative :
  forall (df : list Listing) (cv rv : option string) (check_in check_out : date),
  df <> [] -> non_negative_prices df -> check_in < check_out ->
  exists e, adjusted_price df cv rv check_in check_out = Some e /\ (0 <= e)%Q.
Proof.
  intros df cv rv ci co Hne Hprices _.
  destruct (base_price_nonneg df cv rv Hne Hprices) as (b & Hb & Hb0).
  unfold adjusted_price. rewrite Hb. eexists. split; [reflexivity |].
  apply Qmult_le_0_compat; [exact Hb0 |].
  pose proof (avg_mult_bounds ci co) as [H _]. lra.
Qed.

(** The scenario dataset and one Tuesday night. *)
Lemma estimate_non_negative_witness :
  exists e,
    adjusted_price scenario_df (Some "A"%string) (Some "Entire home"%string)
                   (ymd2ord 2024 1 2) (ymd2ord 2024 1 3) = Some e
    /\ (0 <= e)%Q.
Proof.
  apply estimate_non_negative.
  - discriminate.
  - repeat constructor; eexists; (split; [reflexivity | discriminate]).
  - reflexivity.
Defined.

(** The mean multiplier bounds the estimate between the base price and
    1.82 times the base price, when the base price is not negative. *)
Lemma adjusted_price_bounds (df : list Listing) (cv rv : option string)
    (check_in check_out : date) (b : Q) :
  base_price df cv rv = Some b -> (0 <= b)%Q ->
  exists e, adjusted_price df cv rv check_in check_out = Some e
            /\ (b <= e <= 1.82 * b)%Q.
Proof.
  intros Hb Hb0. unfold adjusted_price. rewrite Hb.
  eexists. split; [reflexivity |].
  pose proof (avg_mult_bounds check_in check_out) as [H1 H2].
  split; nra.
Qed.

(* ================================================================= *)
(** ** The page: guards of the estimator section *)

Ltac split_guards :=
  repeat match goal with
         | |- context [if ?b then _ else _] => destruct b eqn:?
         end.

Lemma dashboard_completes (df : DataFrame) (s : Session) :
  has_column "price" df = true ->
  dashboard (Some df) s
  = Completed
      ([st_title "🏠 Airbnb Simple Dashboard";
        st_write (List.length (rows df)) (List.length (columns df));
        st_dataframe (firstn 5 (rows df))]
       ++ charts df ++ predictor df s).
Proof.
  intro H. unfold dashboard, load_section. rewrite H. reflexivity.
Qed.

Lemma predictor_no_error (df : DataFrame) (s : Session) :
  existsb is_error (predictor df s) = false.
Proof.
  unfold predictor, estimate_action. split_guards; reflexivity.
Qed.

Lemma charts_no_error (df : DataFrame) : existsb is_error (charts df) = false.
Proof.
  unfold charts, chart_room_type, chart_city. split_guards; reflexivity.
Qed.

Lemma dashboard_no_error (df : DataFrame) (s : Session) :
  has_column "price" df = true -> ~ surfaces_error (dashboard (Some df) s).
Proof.
  intro H. rewrite (dashboard_completes df s H). unfold surfaces_error.
  rewrite !existsb_app, charts_no_error, predictor_no_error. discriminate.
Qed.

Lemma adjusted_price_empty (cv rv : option string) (check_in check_out : date) :
  adjusted_price [] cv rv check_in check_out = None.
Proof. reflexivity. Qed.

(** C5 as stated fails: on a dataset with no rows, where both select
    boxes are empty and return [None], pressing the button for one night
    raises nothing and shows no error; the estimate is NaN and the success
    box displays it. *)
Lemma empty_dataset_shows_nan :
  adjusted_price [] None None (ymd2ord 2024 1 2) (ymd2ord 2024 1 3) = None
  /\ estimate_action (mkDataFrame ["city"; "room_type"; "price"]%string [])
                     None None (ymd2ord 2024 1 2) (ymd2ord 2024 1 3) true
     = [st_button "Get date-aware price per night";
        st_success None None None 1]
  /\ ~ surfaces_error
         (dashboard (Some (mkDataFrame ["city"; "room_type"; "price"]%string []))
                    (mkSession 0 0 (ymd2ord 2024 1 2) None true))
  /\ In (st_success None None None 1)
        (page_of
           (dashboard (Some (mkDataFrame ["city"; "room_type"; "price"]%string []))
                      (mkSession 0 0 (ymd2ord 2024 1 2) None true))).
Proof.
  split; [reflexivity |]. split; [reflexivity |]. split.
  - vm_compute. discriminate.
  - vm_compute. tauto.
Qed.

(** C5, amended.  When the dataset has no rows the median of the empty
    price column is NaN, so the base price and the estimate are NaN for
    every query; with check-out after check-in the pressed button yields
    the success box with that NaN, and the script (given the price
    column) raises no error and shows none. *)
Theorem empty_dataset_estimate_is_nan :
  (forall (cv rv : option string) (check_in check_out : date),
     base_price [] cv rv = None
     /\ adjusted_price [] cv rv check_in check_out = None)
  /\ (forall (cols : list string) (cv rv : option string)
             (check_in check_out : date),
        check_in < check_out ->
        estimate_action (mkDataFrame cols []) cv rv check_in check_out true
        = [st_button "Get date-aware price per night";
           st_success None rv cv (check_out - check_in)])
  /\ (forall (cols : list string) (s : Session),
        has_column "price" (mkDataFrame cols []) = true ->
        ~ surfaces_error (dashboard (Some (mkDataFrame cols [])) s)
        /\ forall p r c n,
             In (st_success p r c n)
                (page_of (dashboard (Some (mkDataFrame cols [])) s)) ->
             p = None).
Proof.
  split; [intros; split; reflexivity |]. split.
  - intros cols cv rv ci co Hlt. unfold estimate_action.
    now rewrite (proj2 (Z.leb_gt _ _) Hlt).
  - intros cols s H. split; [now apply dashboard_no_error |].
    intros p r c n. rewrite (dashboard_completes _ s H).
    unfold page_of, charts, chart_room_type, chart_city, predictor,
      estimate_action.
    cbn [rows]. rewrite adjusted_price_empty.
    split_guards; simpl; intuition congruence.
Qed.

(** A file with the three columns and no rows, one Tuesday night. *)
Lemma empty_dataset_estimate_is_nan_witness :
  estimate_action (mkDataFrame ["city"; "room_type"; "price"]%string [])
                  None None (ymd2ord 2024 1 2) (ymd2ord 2024 1 3) true
  = [st_button "Get date-aware price per night";
     st_success None None None (ymd2ord 2024 1 3 - ymd2ord 2024 1 2)]
  /\ ~ surfaces_error
         (dashboard (Some (mkDataFrame ["city"; "room_type"; "price"]%string []))
                    (mkSession 0 0 (ymd2ord 2024 1 2) None true)).
Proof.
  split.
  - apply (proj1 (proj2 empty_dataset_estimate_is_nan)). reflexivity.
  - apply (proj2 (proj2 empty_dataset_estimate_is_nan)
                 ["city"; "room_type"; "price"]%string).
    reflexivity.
Defined.

(** C6.  When the check-out date is not after the check-in date,
    whatever the button state, the guard of line 145 yields the warning
    alone: the page of the run holds no button and no estimate, and with
    the estimator's columns present the controls are followed by the
    warning and nothing else. *)
Theorem invalid_range_withholds_estimate :
  forall (s : Session) (check_out : date),
  check_out_input s = Some check_out ->
  check_out <= check_in_input s ->
  (forall (df : DataFrame) (cv rv : option string) (pressed : bool),
     estimate_action df cv rv (check_in_input s) check_out pressed
     = [st_warning "Check-out date must be after check-in date."])
  /\ (forall file : option DataFrame,
        existsb is_estimate (page_of (dashboard file s)) = false
        /\ existsb is_button (page_of (dashboard file s)) = false)
  /\ (forall df : DataFrame,
        has_column "city" df = true ->
        has_column "room_type" df = true ->
        predictor df s
        = [st_subheader "🧮 Date-aware price per night prediction";
           st_selectbox "City" (select_options (map city (rows df)));
           st_selectbox "Room type" (select_options (map room_type (rows df)));
           st_date_input "Check-in date" (check_in_input s);
           st_date_input "Check-out date" check_out;
           st_warning "Check-out date must be after check-in date."]).
Proof.
  intros s co Hco Hle.
  assert (Hguard : forall df cv rv pressed,
             estimate_action df cv rv (check_in_input s) co pressed
             = [st_warning "Check-out date must be after check-in date."]).
  { intros. unfold estimate_action.
    now rewrite (proj2 (Z.leb_le _ _) Hle). }
  split; [exact Hguard |]. split.
  - intros [df |]; [| split; reflexivity].
    unfold dashboard, load_section, charts, chart_room_type, chart_city,
      predictor.
    rewrite Hco, Hguard. split; split_guards; reflexivity.
  - intros df Hc Hr. unfold predictor. rewrite Hc, Hr, Hco, Hguard.
    reflexivity.
Qed.

(** The rejected range of the specification: check-in and check-out both
    on 5 January 2024, button pressed. *)
Lemma invalid_range_withholds_estimate_witness :
  existsb is_estimate
    (page_of
       (dashboard
          (Some (mkDataFrame ["city"; "room_type"; "price"]%string scenario_df))
          (mkSession 0 0 (ymd2ord 2024 1 5) (Some (ymd2ord 2024 1 5)) true)))
  = false.
Proof.
  apply (invalid_range_withholds_estimate
           (mkSession 0 0 (ymd2ord 2024 1 5) (Some (ymd2ord 2024 1 5)) true)
           (ymd2ord 2024 1 5)).
  - reflexivity.
  - vm_compute. discriminate.
Defined.

(** C9.  When the file has its price column but lacks the city column or
    the room-type column, the predictor section is its heading and the
    information message, with no control and no estimate; the run
    completes without raising or showing an error, the price histogram
    is on the page, and so are the charts of whichever of the two
    columns is present. *)
Theorem missing_columns_disable_predictor :
  forall (df : DataFrame) (s : Session),
  has_column "price" df = true ->
  has_column "city" df = false \/ has_column "room_type" df = false ->
  predictor df s
  = [st_subheader "🧮 Date-aware price per night prediction";
     st_info "Need 'city' and 'room_type' columns to run the predictor."]
  /\ dashboard (Some df) s
     = Completed
         ([st_title "🏠 Airbnb Simple Dashboard";
           st_write (List.length (rows df)) (List.length (columns df));
           st_dataframe (firstn 5 (rows df))]
          ++ charts df ++ predictor df s)
  /\ ~ surfaces_error (dashboard (Some df) s)
  /\ existsb is_estimator_control (page_of (dashboard (Some df) s)) = false
  /\ existsb is_estimate (page_of (dashboard (Some df) s)) = false
  /\ In (st_plotly_chart "Nightly price distribution (capped at 99th percentile)")
        (charts df)
  /\ (has_column "room_type" df = true ->
      In (st_plotly_chart "Average nightly price by room type") (charts df)
      /\ In (st_plotly_chart "Listing share by room type") (charts df))
  /\ (has_column "city" df = true ->
      In (st_plotly_chart "Top 10 cities by average nightly price") (charts df)).
Proof.
  intros df s Hp Hmiss.
  assert (Hpred : predictor df s
                  = [st_subheader "🧮 Date-aware price per night prediction";
                     st_info "Need 'city' and 'room_type' columns to run the predictor."]).
  { unfold predictor. destruct Hmiss as [H | H]; rewrite H;
      [| rewrite andb_false_r]; reflexivity. }
  pose proof (dashboard_completes df s Hp) as Hrun.
  split; [exact Hpred |]. split; [exact Hrun |].
  split; [now apply dashboard_no_error |].
  rewrite Hrun, Hpred. unfold page_of, charts, chart_room_type, chart_city.
  split; [split_guards; reflexivity |].
  split; [split_guards; reflexivity |].
  split; [simpl; tauto |].
  split.
  - intro Hr. rewrite Hr. simpl. tauto.
  - intro Hc. rewrite Hc. rewrite !in_app_iff. simpl. tauto.
Qed.

(** A file with price and room type but no city, and one with price and
    city but no room type. *)
Lemma missing_columns_disable_predictor_witness :
  predictor (mkDataFrame ["room_type"; "price"]%string scenario_df)
            (mkSession 0 0 (ymd2ord 2024 1 2) None true)
  = [st_subheader "🧮 Date-aware price per night prediction";
     st_info "Need 'city' and 'room_type' columns to run the predictor."]
  /\ ~ surfaces_error
         (dashboard (Some (mkDataFrame ["city"; "price"]%string scenario_df))
                    (mkSession 0 0 (ymd2ord 2024 1 2) None true)).
Proof.
  split.
  - apply (missing_columns_disable_predictor
             (mkDataFrame ["room_type"; "price"]%string scenario_df)).
    + reflexivity.
    + left. reflexivity.
  - apply (missing_columns_disable_predictor
             (mkDataFrame ["city"; "price"]%string scenario_df)
             (mkSession 0 0 (ymd2ord 2024 1 2) None true)).
    + reflexivity.
    + right. reflexivity.
Defined.

(* ================================================================= *)
(** ** The multiplier in binary64 arithmetic *)

Module Binary64Facts.
Import Binary64.

#[local] Set Warnings "-inexact-float".

(** X20.  In binary64 arithmetic, as Python computes it, the multiplier
    of every date is a finite number within one unit in the last place
    (2^-52) of its exact rational value. *)
Lemma date_multiplier_b64_close (d : date) :
  exists q : Q,
    to_Q (date_multiplier_b64 d) = Some q
    /\ (Qabs (q - date_multiplier d) <= ulp1)%Q.
Proof.
  pose proof (summer_not_december d) as X.
  unfold date_multiplier_b64, date_multiplier.
  rewrite Zin_summer. fold (december d).
  destruct (Zin (weekday d) [4; 5]), (summer d), (december d);
    try discriminate X; eexists; (split; [vm_compute; reflexivity |]);
    vm_compute; intro H; discriminate H.
Qed.

(** C2 as stated fails on Saturday 7 December 2024: the binary64
    product of 1.30 and 1.40 is 1.8199999999999998, one unit in the last
    place under the binary64 value of the literal 1.82, and not equal to
    it. *)
Lemma december_saturday_b64 :
  date_multiplier_b64 (ymd2ord 2024 12 7) = (1.30 * 1.40)%float
  /\ (date_multiplier_b64 (ymd2ord 2024 12 7) =? 1.82)%float = false
  /\ (date_multiplier_b64 (ymd2ord 2024 12 7) + 0x1p-52 =? 1.82)%float = true.
Proof. repeat split; vm_compute; reflexivity. Qed.

(** A date with no bump is exactly 1.0 in binary64 too. *)
Lemma plain_date_b64 : date_multiplier_b64 (ymd2ord 2024 1 2) = 1.0%float.
Proof. vm_compute. reflexivity. Qed.

Lemma date_multiplier_b64_factors (d : date) :
  date_multiplier_b64 d
  = (1.0 * factor_b64 (friday_or_saturday d) 1.30
     * factor_b64 (summer d) 1.20 * factor_b64 (december d) 1.40)%float.
Proof.
  unfold date_multiplier_b64. rewrite Zin_weekend, Zin_summer.
  fold (december d).
  destruct (friday_or_saturday d), (summer d), (december d);
    vm_compute; reflexivity.
Qed.

(** C2, amended.  For every date the multiplier, computed in binary64 as
    Python does, is the product from 1.0 of the independent factors 1.30
    (Friday or Saturday), 1.20 (June, July or August) and 1.40
    (December).  A December Friday or Saturday gets the binary64 product
    1.30 * 1.40, which is 1.8199999999999998: one unit in the last place
    below 1.82, not 1.82 itself.  A date with none of the three gets
    exactly 1.0. *)
Theorem date_multiplier_b64_product : forall d : date,
  date_multiplier_b64 d
  = (1.0 * factor_b64 (friday_or_saturday d) 1.30
     * factor_b64 (summer d) 1.20 * factor_b64 (december d) 1.40)%float
  /\ (friday_or_saturday d = true -> december d = true ->
      date_multiplier_b64 d = (1.30 * 1.40)%float
      /\ date_multiplier_b64 d = 0x1.d1eb851eb851ep+0%float
      /\ (date_multiplier_b64 d =? 1.82)%float = false
      /\ (date_multiplier_b64 d + 0x1p-52 =? 1.82)%float = true
      /\ exists q : Q,
           to_Q (date_multiplier_b64 d) = Some q
           /\ (q < 1.82)%Q /\ (1.82 - q <= ulp1)%Q)
  /\ (friday_or_saturday d = false -> summer d = false ->
      december d = false -> date_multiplier_b64 d = 1.0%float).
Proof.
  intro d. split; [apply date_multiplier_b64_factors |].
  pose proof (date_multiplier_b64_factors d) as F.
  pose proof (summer_not_december d) as X.
  split.
  - intros W D. rewrite W, D in *. rewrite andb_true_r in X. rewrite X in F.
    rewrite F.
    split; [vm_compute; reflexivity |]. split; [vm_compute; reflexivity |].
    split; [vm_compute; reflexivity |]. split; [vm_compute; reflexivity |].
    eexists. split; [vm_compute; reflexivity |].
    split; [vm_compute; reflexivity | vm_compute; intro H; discriminate H].
  - intros W S D. rewrite W, S, D in F. rewrite F. vm_compute. reflexivity.
Qed.

(** A Saturday in December 2024 and a Tuesday in January 2024. *)
Lemma date_multiplier_b64_product_witness :
  date_multiplier_b64 (ymd2ord 2024 12 7) = (1.30 * 1.40)%float
  /\ date_multiplier_b64 (ymd2ord 2024 1 2) = 1.0%float.
Proof.
  split.
  - apply (proj1 (proj2 (date_multiplier_b64_product (ymd2ord 2024 12 7))));
      reflexivity.
  - apply (proj2 (proj2 (date_multiplier_b64_product (ymd2ord 2024 1 2))));
      reflexivity.
Defined.

(** C10 as stated fails twice.  On Saturday 7 December 2024 the
    multiplier the code returns is none of 1.0, 1.2, 1.3, 1.4, 1.56 and
    1.82; and for one listing at -100 the estimate of a Tuesday night is
    -100, above 1.82 times the base price. *)
Lemma multiplier_set_and_bound_fail :
  existsb (PrimFloat.eqb (date_multiplier_b64 (ymd2ord 2024 12 7)))
          multiplier_literals_b64 = false
  /\ exists b e : Q,
       base_price [mkListing (Some "A"%string) (Some "Entire home"%string)
                             (Some (-100)%Q)]
                  (Some "A"%string) (Some "Entire home"%string) = Some b
       /\ adjusted_price
            [mkListing (Some "A"%string) (Some "Entire home"%string)
                       (Some (-100)%Q)]
            (Some "A"%string) (Some "Entire home"%string)
            (ymd2ord 2024 1 2) (ymd2ord 2024 1 3) = Some e
       /\ ~ (e <= 1.82 * b)%Q.
Proof.
  split; [vm_compute; reflexivity |].
  do 2 eexists. split; [vm_compute; reflexivity |].
  split; [vm_compute; reflexivity |].
  unfold Qle. simpl. lia.
Qed.

(** C10, amended.  Summer and December exclude each other, so the
    multiplier the code computes for a date is one of the six binary64
    numbers 1.0, 1.2, 1.3, 1.4, 1.56 and 1.30 * 1.40 (which is
    1.8199999999999998, not 1.82), and lies between 1.0 and 1.82.  For
    every query whose base price is a number that is not negative, the
    estimate is at least the base price and at most 1.82 times the base
    price. *)
Theorem multiplier_set_and_estimate_bound :
  (forall d : date,
     summer d && december d = false
     /\ In (date_multiplier_b64 d) multiplier_values_b64
     /\ (1.0 <=? date_multiplier_b64 d)%float = true
     /\ (date_multiplier_b64 d <=? 1.82)%float = true)
  /\ (forall (df : list Listing) (cv rv : option string)
             (check_in check_out : date) (b : Q),
        base_price df cv rv = Some b -> (0 <= b)%Q ->
        exists e, adjusted_price df cv rv check_in check_out = Some e
                  /\ (b <= e <= 1.82 * b)%Q).
Proof.
  split; [| apply adjusted_price_bounds].
  intro d. split; [apply summer_not_december |].
  pose proof (summer_not_december d) as X.
  rewrite date_multiplier_b64_factors. unfold multiplier_values_b64.
  destruct (friday_or_saturday d), (summer d), (december d);
    try discriminate X;
    (split; [| split; vm_compute; reflexivity]).
  - do 4 right. left. vm_compute. reflexivity.
  - do 5 right. left. vm_compute. reflexivity.
  - do 2 right. left. vm_compute. reflexivity.
  - right. left. vm_compute. reflexivity.
  - do 3 right. left. vm_compute. reflexivity.
  - left. vm_compute. reflexivity.
Qed.

(** The scenario dataset, city B: base price 200, a Saturday night in
    December. *)
Lemma multiplier_set_and_estimate_bound_witness :
  exists e,
    adjusted_price scenario_df (Some "B"%string) (Some "Entire home"%string)
                   (ymd2ord 2024 12 7) (ymd2ord 2024 12 8) = Some e
    /\ (200 <= e <= 1.82 * 200)%Q.
Proof.
  apply (proj2 multiplier_set_and_estimate_bound).
  - reflexivity.
  - discriminate.
Defined.

(** Where rounding shows: three December weekday nights, each at 1.4,
    average to 1.3999999999999997, so a base price of 100 gives
    139.99999999999997 for the three nights and 140.0 for one. *)
Lemma constant_multiplier_rounds_b64 :
  avg_mult_b64 (ymd2ord 2024 12 2) (ymd2ord 2024 12 5)
  = 0x1.6666666666665p+0%float
  /\ adjusted_price_b64 100 (ymd2ord 2024 12 2) (ymd2ord 2024 12 5)
     = 0x1.17fffffffffffp+7%float
  /\ adjusted_price_b64 100 (ymd2ord 2024 12 2) (ymd2ord 2024 12 3)
     = 140%float.
Proof. repeat split; vm_compute; reflexivity. Qed.

End Binary64Facts.

(* ================================================================= *)
(** ** The select boxes *)

Lemma In_unique (l : list string) (x : string) : In x (unique l) <-> In x l.
Proof.
  induction l as [| y l IH]; simpl; [tauto |].
  rewrite filter_In, IH, negb_true_iff, String.eqb_neq.
  destruct (string_dec y x) as [E | N]; tauto.
Qed.

Lemma NoDup_unique (l : list string) : NoDup (unique l).
Proof.
  induction l as [| y l IH]; simpl; constructor.
  - rewrite filter_In, negb_true_iff, String.eqb_neq. tauto.
  - now apply NoDup_filter.
Qed.

Lemma In_select_options (col : list (option string)) (x : string) :
  In x (select_options col) <-> In (Some x) col.
Proof.
  unfold select_options.
  transitivity (In x (unique (dropna col))).
  - split; apply Permutation_in;
      [apply Permutation_sym |]; apply StringSort.Permuted_sort.
  - rewrite In_unique. apply In_dropna.
Qed.

Lemma select_options_distinct (col : list (option string)) :
  NoDup (select_options col).
Proof.
  unfold select_options.
  apply Permutation_NoDup with (1 := StringSort.Permuted_sort _).
  apply NoDup_unique.
Qed.

(** X1.  The options of a select box are exactly the values of the
    column that are not missing, each once, in ascending order. *)
Theorem select_options_sorted_distinct : forall col : list (option string),
  (forall x, In x (select_options col) <-> In (Some x) col)
  /\ NoDup (select_options col)
  /\ Sorted (fun a b => String.leb a b = true) (select_options col).
Proof.
  intro col. split; [apply In_select_options |]. split.
  - apply select_options_distinct.
  - apply StringSort.Sorted_sort.
Qed.

Lemma selectbox_In (options : list string) (choice : nat) (c : string) :
  selectbox options choice = Some c -> In c options.
Proof. unfold selectbox. apply nth_error_In. Qed.

Lemma In_base_subset_city (df : list Listing) (c : string)
    (rv : option string) (r : Listing) :
  subset_city df (Some c) <> [] ->
  In r (base_subset df (Some c) rv) -> city r = Some c.
Proof.
  intros Hcity.
  destruct (subset_city_room df (Some c) rv) as [| r1 l1] eqn:E1.
  - rewrite base_subset_city by assumption.
    intro H. now apply In_subset_city in H.
  - rewrite base_subset_exact by (rewrite E1; discriminate).
    unfold subset_city_room. rewrite filter_In, andb_true_iff, cell_eqb_Some.
    tauto.
Qed.

(** X2.  A city picked in the select box occurs in the dataset, so the
    rows the base price is taken from are never the whole-dataset
    fallback: there is at least one, and each is of the picked city. *)
Theorem selected_city_never_global :
  forall (df : list Listing) (choice : nat) (c : string) (rv : option string),
  selectbox (select_options (map city df)) choice = Some c ->
  (exists r, In r df /\ city r = Some c)
  /\ base_subset df (Some c) rv <> []
  /\ (forall r, In r (base_subset df (Some c) rv) ->
                In r df /\ city r = Some c).
Proof.
  intros df choice c rv Hsel.
  apply selectbox_In, In_select_options, in_map_iff in Hsel.
  destruct Hsel as (r0 & Hr0 & Hin0).
  assert (Hcity : subset_city df (Some c) <> []).
  { apply nonempty_iff_inhabited. exists r0. now apply In_subset_city. }
  split; [now exists r0 |]. split.
  - apply base_subset_nonempty. intro E. now rewrite E in Hin0.
  - intros r Hr. split; [now apply base_subset_incl in Hr |].
    now apply In_base_subset_city with (2 := Hr).
Qed.

(** The scenario dataset: the first option of the city box is A. *)
Lemma selected_city_never_global_witness :
  base_subset scenario_df (Some "A"%string) (Some "Shared room"%string) <> [].
Proof.
  apply (selected_city_never_global scenario_df 0 "A"
           (Some "Shared room"%string)).
  reflexivity.
Defined.

Lemma subset_city_None (df : list Listing) : subset_city df None = [].
Proof.
  unfold subset_city. induction df as [| r df IH]; [reflexivity |].
  simpl. now destruct (city r).
Qed.

(** X3.  A select box has no option exactly when every cell of its
    column is missing; it then returns [None], which no row matches, and
    the base price is the median over the whole dataset whatever the
    room type. *)
Theorem empty_select_box_uses_global_median :
  forall (df : list Listing),
  (select_options (map city df) = [] <-> forall r, In r df -> city r = None)
  /\ (select_options (map city df) = [] ->
      forall choice, selectbox (select_options (map city df)) choice = None)
  /\ (forall rv, base_price df None rv = median (map price df)).
Proof.
  intro df. split; [| split].
  - split.
    + intros E r Hr. destruct (city r) as [c |] eqn:Ec; [| reflexivity].
      exfalso. assert (H : In c (select_options (map city df))).
      { apply In_select_options. rewrite <- Ec. now apply in_map. }
      now rewrite E in H.
    + intro H. destruct (select_options (map city df)) as [| c l] eqn:E;
        [reflexivity |].
      assert (Hc : In c (select_options (map city df)))
        by (rewrite E; now left).
      apply In_select_options, in_map_iff in Hc.
      destruct Hc as (r & Hr & Hin). rewrite (H r Hin) in Hr. discriminate.
  - intros E choice. rewrite E. unfold selectbox. now destruct choice.
  - intro rv. unfold base_price.
    now rewrite base_subset_all by apply subset_city_None.
Qed.

(** Two listings without a city: the box is empty and the base price is
    the median of both prices. *)
Lemma empty_select_box_uses_global_median_witness :
  selectbox
    (select_options
       (map city [mkListing None (Some "Entire home"%string) (Some 80%Q);
                  mkListing None (Some "Private room"%string) (Some 40%Q)]))
    0 = None.
Proof.
  apply (proj1 (proj2 (empty_select_box_uses_global_median _))).
  reflexivity.
Defined.

(* ================================================================= *)
(** ** Missing prices and the median of an odd count *)

Lemma median_sorted_None (s : list Q) : median_sorted s = None <-> s = [].
Proof.
  unfold median_sorted. destruct s as [| x s]; [tauto |].
  cbn [List.length Nat.eqb].
  destruct (Nat.even (S (List.length s))); split; discriminate.
Qed.

Lemma median_None (col : list (option Q)) :
  median col = None <-> forall x, In x col -> x = None.
Proof.
  unfold median. rewrite median_sorted_None. split.
  - intros E [p |] Hx; [| reflexivity].
    apply In_dropna, In_sort in Hx. now rewrite E in Hx.
  - intro H. apply length_zero_iff_nil. rewrite length_sort.
    apply length_zero_iff_nil.
    destruct (dropna col) as [| p l] eqn:E; [reflexivity |].
    assert (Hp : In p (dropna col)) by (rewrite E; now left).
    apply In_dropna, H in Hp. discriminate.
Qed.

(** X4.  The base price, and with it the estimate, is NaN exactly when no
    row of the subset the chain settled on has a price.  The chain tests
    only whether a subset has rows: when the rows that match city and
    room type all lack a price, the estimate is NaN even though other
    rows of the city have one. *)
Theorem base_price_nan_iff :
  forall (df : list Listing) (cv rv : option string) (check_in check_out : date),
  (base_price df cv rv = None
   <-> forall r, In r (base_subset df cv rv) -> price r = None)
  /\ (adjusted_price df cv rv check_in check_out = None
      <-> base_price df cv rv = None)
  /\ (subset_city_room df cv rv <> [] ->
      (forall r, In r (subset_city_room df cv rv) -> price r = None) ->
      adjusted_price df cv rv check_in check_out = None).
Proof.
  intros df cv rv ci co.
  assert (H1 : base_price df cv rv = None
               <-> forall r, In r (base_subset df cv rv) -> price r = None).
  { unfold base_price. rewrite median_None. split.
    - intros H r Hr. apply H. now apply in_map.
    - intros H x Hx. apply in_map_iff in Hx. destruct Hx as (r & <- & Hr).
      now apply H. }
  assert (H2 : adjusted_price df cv rv ci co = None
               <-> base_price df cv rv = None).
  { unfold adjusted_price. destruct (base_price df cv rv); split;
      congruence. }
  split; [exact H1 |]. split; [exact H2 |].
  intros Hne Hall. apply H2, H1. now rewrite base_subset_exact.
Qed.

(** City A has an entire home without a price and a private room at 50:
    the estimate for an entire home in A is NaN. *)
Lemma base_price_nan_iff_witness :
  adjusted_price
    [mkListing (Some "A"%string) (Some "Entire home"%string) None;
     mkListing (Some "A"%string) (Some "Private room"%string) (Some 50%Q)]
    (Some "A"%string) (Some "Entire home"%string)
    (ymd2ord 2024 1 2) (ymd2ord 2024 1 3) = None.
Proof.
  apply (proj2 (proj2 (base_price_nan_iff _ _ _ _ _))).
  - discriminate.
  - intros r [<- | []]. reflexivity.
Defined.

Lemma median_sorted_bounds (s : list Q) (lo hi m : Q) :
  (forall x, In x s -> (lo <= x <= hi)%Q) ->
  median_sorted s = Some m -> (lo <= m <= hi)%Q.
Proof.
  intros H. unfold median_sorted.
  destruct (List.length s =? 0)%nat eqn:En; [discriminate |].
  apply Nat.eqb_neq in En.
  assert (Hk : (List.length s / 2 < List.length s)%nat)
    by (apply Nat.div_lt; lia).
  set (k := (List.length s / 2)%nat) in *.
  destruct (H (nth k s 0%Q)) as [Ha1 Ha2]; [apply nth_In; exact Hk |].
  destruct (H (nth (k - 1) s 0%Q)) as [Hb1 Hb2]; [apply nth_In; lia |].
  destruct (Nat.even (List.length s)); intro Hm; injection Hm as <-.
  - split; [apply Qle_shift_div_l | apply Qle_shift_div_r]; lra.
  - now split.
Qed.

(** A column with the prices 200, 50, missing and 100 has the median
    100, with 50 below and 100 and 200 above. *)
Lemma median_splits_witness :
  (forall x,
     In x (firstn 1 (QSort.sort [200; 50; 100]%Q)) -> (x <= 100)%Q)
  /\ (forall x,
        In x (skipn 1 (QSort.sort [200; 50; 100]%Q)) -> (100 <= x)%Q).
Proof.
  apply (median_splits [Some 200; Some 50; None; Some 100]%Q 100).
  reflexivity.
Defined.

(** X6.  When the number of prices that are not missing is odd, the
    median is the middle one of the sorted prices: it is one of the
    prices of the column, taken as it is, the lower half of the sorted
    column is at most it and the rest is at least it. *)
Theorem median_odd_is_a_price :
  forall col : list (option Q),
  Nat.odd (List.length (dropna col)) = true ->
  median col
  = Some (nth (List.length (dropna col) / 2) (QSort.sort (dropna col)) 0%Q)
  /\ In (Some (nth (List.length (dropna col) / 2)
                   (QSort.sort (dropna col)) 0%Q)) col
  /\ (forall x,
        In x (firstn (List.length (dropna col) / 2)
                     (QSort.sort (dropna col))) ->
        (x <= nth (List.length (dropna col) / 2)
                  (QSort.sort (dropna col)) 0)%Q)
  /\ (forall x,
        In x (skipn (List.length (dropna col) / 2)
                    (QSort.sort (dropna col))) ->
        (nth (List.length (dropna col) / 2)
             (QSort.sort (dropna col)) 0 <= x)%Q).
Proof.
  intros col Hodd.
  set (n := List.length (dropna col)) in *.
  assert (Hn : (0 < n)%nat) by (destruct n; [discriminate | lia]).
  assert (Hmed : median col = Some (nth (n / 2) (QSort.sort (dropna col)) 0%Q)).
  { unfold median, median_sorted. rewrite length_sort. fold n.
    replace (n =? 0)%nat with false by (symmetry; apply Nat.eqb_neq; lia).
    rewrite <- Nat.negb_odd, Hodd. reflexivity. }
  split; [exact Hmed |]. split.
  - apply In_dropna, In_sort, nth_In. rewrite length_sort. fold n.
    apply Nat.div_lt; lia.
  - pose proof (median_splits col _ Hmed) as H.
    rewrite length_sort in H. exact H.
Qed.

(** The scenario dataset has three prices; the median is 100, the price
    of the first listing. *)
Lemma median_odd_is_a_price_witness :
  median (map price scenario_df)
  = Some (nth (List.length (dropna (map price scenario_df)) / 2)
              (QSort.sort (dropna (map price scenario_df))) 0%Q).
Proof.
  apply (median_odd_is_a_price (map price scenario_df)). reflexivity.
Defined.

(* ================================================================= *)
(** ** One night, several nights, whole weeks *)

Lemma Qsum_app (l1 l2 : list Q) : (Qsum (l1 ++ l2) == Qsum l1 + Qsum l2)%Q.
Proof.
  unfold Qsum. induction l1 as [| x l1 IH]; simpl; [ring |].
  rewrite IH. ring.
Qed.





Lemma map_seq_shift (f g : nat -> date) (m : nat) :
  forall n k : nat,
    (forall i, f (n + i)%nat = g (k + i)%nat) ->
    map f (seq n m) = map g (seq k m).
Proof.
  induction m as [| m IH]; intros n k H; [reflexivity |].
  simpl. f_equal.
  - specialize (H 0%nat). now rewrite !Nat.add_0_r in H.
  - apply IH. intro i. specialize (H (S i)).
    now rewrite !Nat.add_succ_r in H.
Qed.

Lemma stay_dates_app (a b c : date) :
  a <= b <= c -> stay_dates a c = stay_dates a b ++ stay_dates b c.
Proof.
  intros H. unfold stay_dates, date_range.
  replace (c - 1 - a + 1) with (c - a) by lia.
  replace (b - 1 - a + 1) with (b - a) by lia.
  replace (c - 1 - b + 1) with (c - b) by lia.
  replace (Z.to_nat (c - a)) with (Z.to_nat (b - a) + Z.to_nat (c - b))%nat
    by lia.
  rewrite seq_app, map_app. f_equal. cbn [Nat.add].
  apply map_seq_shift. intro i. lia.
Qed.

Lemma avg_mult_total (check_in check_out : date) :
  check_in <= check_out ->
  (avg_mult check_in check_out * inject_Z (check_out - check_in)%Z
   == Qsum (map date_multiplier (stay_dates check_in check_out)))%Q.
Proof.
  intro Hle. destruct (Z.eq_dec check_in check_out) as [<- | Hne].
  - rewrite (stay_dates_empty check_in check_in) by lia.
    rewrite Z.sub_diag. unfold Qsum. simpl. ring.
  - rewrite avg_mult_mean by (apply stay_dates_nonempty; lia).
    unfold arithmetic_mean, Qsum.
    rewrite length_map, length_stay_dates, Z2Nat.id by lia.
    field. change 0%Q with (inject_Z 0). rewrite inject_Z_injective. lia.
Qed.

(** X8.  Splitting a stay at any day in between splits its nights: the
    nights of the whole stay are the nights of the first part followed by
    the nights of the second, and the numbers of nights add up. *)
Theorem stay_splits_at (a b c : date) :
  a <= b <= c ->
  stay_dates a c = stay_dates a b ++ stay_dates b c
  /\ List.length (stay_dates a c)
     = (List.length (stay_dates a b) + List.length (stay_dates b c))%nat
  /\ nights a c = nights a b + nights b c.
Proof.
  intro H. split; [now apply stay_dates_app |]. split.
  - rewrite (stay_dates_app a b c H). apply length_app.
  - unfold nights. lia.
Qed.

(** Thursday 4 to Sunday 7 January 2024, split on Saturday. *)
Lemma stay_splits_at_witness :
  stay_dates (ymd2ord 2024 1 4) (ymd2ord 2024 1 7)
  = stay_dates (ymd2ord 2024 1 4) (ymd2ord 2024 1 6)
    ++ stay_dates (ymd2ord 2024 1 6) (ymd2ord 2024 1 7).
Proof.
  apply (stay_splits_at (ymd2ord 2024 1 4) (ymd2ord 2024 1 6)
                        (ymd2ord 2024 1 7)).
  vm_compute. split; discriminate.
Defined.

Lemma weekday_add (d i : date) : weekday (d + i) = (weekday d + i) mod 7.
Proof.
  unfold weekday. rewrite Z.add_mod_idemp_l by lia. f_equal. lia.
Qed.

Lemma off_season_multiplier (d : date) :
  summer d = false -> december d = false ->
  (date_multiplier d == factor (friday_or_saturday d) 1.30)%Q.
Proof.
  intros Hs Hd. rewrite date_multiplier_factors, Hs, Hd. unfold factor. ring.
Qed.

(** Seven nights in a row hold one Friday and one Saturday. *)
Lemma week_total (a : date) :
  (forall d, a <= d < a + 7 -> summer d = false /\ december d = false) ->
  (Qsum (map date_multiplier (stay_dates a (a + 7)%Z)) == 7.6)%Q.
Proof.
  intro Hoff. unfold stay_dates, date_range.
  replace (Z.to_nat (a + 7 - 1 - a + 1)) with 7%nat by lia.
  cbn [seq map Qsum fold_right Z.of_nat Pos.of_succ_nat Pos.succ].
  assert (Hm : forall i, 0 <= i < 7 ->
               (date_multiplier (a + i)%Z
                == factor (friday_or_saturday (a + i)%Z) 1.30)%Q).
  { intros i Hi. destruct (Hoff (a + i)) as [Hs Hd]; [lia |].
    now apply off_season_multiplier. }
  rewrite !Hm by lia. unfold friday_or_saturday. rewrite !weekday_add.
  pose proof (Z.mod_pos_bound (a + 6) 7 eq_refl) as Hr.
  fold (weekday a) in Hr.
  assert (Hcases : weekday a = 0 \/ weekday a = 1 \/ weekday a = 2
                   \/ weekday a = 3 \/ weekday a = 4 \/ weekday a = 5
                   \/ weekday a = 6) by lia.
  destruct Hcases as [E | [E | [E | [E | [E | [E | E]]]]]];
    rewrite E; reflexivity.
Qed.

Lemma weeks_total (weeks : nat) :
  forall a : date,
    (forall d, a <= d < a + 7 * Z.of_nat weeks ->
               summer d = false /\ december d = false) ->
    (Qsum (map date_multiplier (stay_dates a (a + 7 * Z.of_nat weeks)%Z))
     == 7.6 * inject_Z (Z.of_nat weeks))%Q.
Proof.
  induction weeks as [| weeks IH]; intros a Hoff.
  - rewrite stay_dates_empty by lia. reflexivity.
  - rewrite (stay_dates_app a (a + 7) (a + 7 * Z.of_nat (S weeks))) by lia.
    rewrite map_app, Qsum_app, week_total by (intros d Hd; apply Hoff; lia).
    replace (a + 7 * Z.of_nat (S weeks)) with (a + 7 + 7 * Z.of_nat weeks)
      by lia.
    rewrite IH by (intros d Hd; apply Hoff; lia).
    rewrite inject_Z_of_nat_S. ring.
Qed.

Lemma filter_length_negb {A : Type} (f : A -> bool) (l : list A) :
  (List.length (filter f l) + List.length (filter (fun x => negb (f x)) l)
   = List.length l)%nat.
Proof.
  induction l as [| x l IH]; [reflexivity |]. simpl.
  destruct (f x); simpl; lia.
Qed.

(** The test of line 165 on the nights of a stay. *)
Lemma weekend_nights_app (a b c : date) :
  a <= b <= c ->
  List.length (filter (fun d => Zin (weekday d) [4; 5]%Z) (stay_dates a c))
  = (List.length (filter (fun d => Zin (weekday d) [4; 5]%Z) (stay_dates a b))
     + List.length (filter (fun d => Zin (weekday d) [4; 5]%Z) (stay_dates b c)))%nat.
Proof.
  intro H. rewrite (stay_dates_app a b c H), filter_app. apply length_app.
Qed.

Lemma weekend_nights_week (a : date) :
  List.length (filter (fun d => Zin (weekday d) [4; 5]%Z) (stay_dates a (a + 7)))
  = 2%nat.
Proof.
  unfold stay_dates, date_range.
  replace (Z.to_nat (a + 7 - 1 - a + 1)) with 7%nat by lia.
  cbn [seq map Z.of_nat Pos.of_succ_nat Pos.succ filter].
  rewrite !weekday_add.
  pose proof (Z.mod_pos_bound (a + 6) 7 eq_refl) as Hr.
  fold (weekday a) in Hr.
  assert (Hcases : weekday a = 0 \/ weekday a = 1 \/ weekday a = 2
                   \/ weekday a = 3 \/ weekday a = 4 \/ weekday a = 5
                   \/ weekday a = 6) by lia.
  destruct Hcases as [E | [E | [E | [E | [E | [E | E]]]]]];
    rewrite E; reflexivity.
Qed.

(** X9.  A stay of whole weeks, whatever its start day, has seven nights
    a week of which exactly two pass the weekend test of the multiplier:
    [2 * weeks] nights get the 1.30 factor and [5 * weeks] do not. *)
Theorem whole_weeks_weekend_nights :
  forall (a : date) (weeks : nat),
  List.length (stay_dates a (a + 7 * Z.of_nat weeks)) = (7 * weeks)%nat
  /\ List.length (filter (fun d => Zin (weekday d) [4; 5]%Z)
                         (stay_dates a (a + 7 * Z.of_nat weeks)))
     = (2 * weeks)%nat
  /\ List.length (filter (fun d => negb (Zin (weekday d) [4; 5]%Z))
                         (stay_dates a (a + 7 * Z.of_nat weeks)))
     = (5 * weeks)%nat.
Proof.
  intros a weeks.
  assert (Hlen : List.length (stay_dates a (a + 7 * Z.of_nat weeks))
                 = (7 * weeks)%nat)
    by (rewrite length_stay_dates; lia).
  assert (Hwe : List.length (filter (fun d => Zin (weekday d) [4; 5]%Z)
                               (stay_dates a (a + 7 * Z.of_nat weeks)))
                = (2 * weeks)%nat).
  { clear Hlen. revert a. induction weeks as [| weeks IH]; intro a.
    - rewrite stay_dates_empty by lia. reflexivity.
    - rewrite (weekend_nights_app a (a + 7)) by lia.
      rewrite weekend_nights_week.
      replace (a + 7 * Z.of_nat (S weeks)) with (a + 7 + 7 * Z.of_nat weeks)
        by lia.
      rewrite IH. lia. }
  split; [exact Hlen |]. split; [exact Hwe |].
  pose proof (filter_length_negb (fun d => Zin (weekday d) [4; 5]%Z)
                (stay_dates a (a + 7 * Z.of_nat weeks))) as H.
  rewrite Hlen, Hwe in H. lia.
Qed.

(* ================================================================= *)
(** ** What a run puts on the page *)

Ltac split_columns df :=
  destruct (has_column "price" df) eqn:?,
           (has_column "room_type" df) eqn:?,
           (has_column "city" df) eqn:?.

(** X10.  The estimate is shown exactly when the file was loaded, it has
    the price, city and room-type columns, the check-out date is after
    the check-in date and the button has just been pressed.  The page
    never holds the warning together with the button. *)
Theorem estimate_shown_iff :
  forall (file : option DataFrame) (s : Session),
  existsb is_estimate (page_of (dashboard file s))
  = match file with
    | None => false
    | Some df =>
        has_column "price" df && has_column "city" df
        && has_column "room_type" df
        && (check_in_input s <? check_out_of s) && clicked s
    end
  /\ existsb is_warning (page_of (dashboard file s))
     && existsb is_button (page_of (dashboard file s)) = false.
Proof.
  intros [df |] s; [| split; reflexivity].
  unfold dashboard, load_section, charts, chart_room_type, chart_city,
    predictor, estimate_action, check_out_of.
  rewrite Z.ltb_antisym.
  destruct (_ <=? check_in_input s), (clicked s);
    split_columns df; split; reflexivity.
Qed.

(** X11.  Whatever makes the load fail, a missing file or a file
    [pd.read_csv] cannot read, the page is the title and one error box
    with the text of the exception, and the run stops there; a missing
    file gives the message that names it.  When the load succeeds no
    error box is shown; the run raises exactly when the frame lacks the
    price column, before any chart, and charts are drawn exactly when it
    has it. *)
Theorem run_outcome_of_load :
  forall (path_exists : bool) (read_csv : load_outcome) (s : Session),
  (forall msg, load_data path_exists read_csv = LoadRaised msg ->
     run_script (load_data path_exists read_csv) s
     = Stopped [st_title "🏠 Airbnb Simple Dashboard"; st_error msg])
  /\ (path_exists = false ->
      run_script (load_data path_exists read_csv) s = dashboard None s
      /\ exists msg,
           run_script (load_data path_exists read_csv) s
           = Stopped [st_title "🏠 Airbnb Simple Dashboard"; st_error msg])
  /\ existsb is_error (page_of (run_script (load_data path_exists read_csv) s))
     = match load_data path_exists read_csv with
       | LoadRaised _ => true
       | Loaded _ => false
       end
  /\ raised (run_script (load_data path_exists read_csv) s)
     = match load_data path_exists read_csv with
       | LoadRaised _ => false
       | Loaded df => negb (has_column "price" df)
       end
  /\ existsb is_chart (page_of (run_script (load_data path_exists read_csv) s))
     = match load_data path_exists read_csv with
       | LoadRaised _ => false
       | Loaded df => has_column "price" df
       end.
Proof.
  intros path_exists read_csv s.
  split; [intros msg E; rewrite E; reflexivity |].
  split; [intros ->; split; [reflexivity | eexists; reflexivity] |].
  destruct (load_data path_exists read_csv) as [df | msg];
    [| repeat split].
  unfold run_script, dashboard, load_section, charts, chart_room_type,
    chart_city, predictor, estimate_action.
  destruct (_ <=? check_in_input s), (clicked s);
    split_columns df; repeat split.
Qed.

(** The file is missing. *)
Lemma run_outcome_of_load_witness :
  exists msg,
    run_script (load_data false (LoadRaised ""))
               (mkSession 0 0 (ymd2ord 2024 1 2) None true)
    = Stopped [st_title "🏠 Airbnb Simple Dashboard"; st_error msg].
Proof.
  apply (proj1 (proj2 (run_outcome_of_load false _ _))). reflexivity.
Defined.

(** X12.  The price histogram is always among the charts; the two
    room-type charts are there exactly when the file has the room-type
    column, and the city chart exactly when it has the city column.  A
    missing column is reported once: the second room-type chart is
    skipped without a message. *)
Theorem charts_follow_columns :
  forall df : DataFrame,
  In (st_plotly_chart "Nightly price distribution (capped at 99th percentile)")
     (charts df)
  /\ (In (st_plotly_chart "Average nightly price by room type") (charts df)
      <-> has_column "room_type" df = true)
  /\ (In (st_plotly_chart "Listing share by room type") (charts df)
      <-> has_column "room_type" df = true)
  /\ (In (st_plotly_chart "Top 10 cities by average nightly price") (charts df)
      <-> has_column "city" df = true)
  /\ List.length (filter is_chart (charts df))
     = ((1 + (if has_column "room_type" df then 2 else 0)
         + (if has_column "city" df then 1 else 0))%nat)
  /\ List.length
       (filter (fun e => match e with st_info _ => true | _ => false end)
               (charts df))
     = ((if has_column "room_type" df then 0 else 1)
        + (if has_column "city" df then 0 else 1))%nat.
Proof.
  intro df. unfold charts, chart_room_type, chart_city.
  destruct (has_column "room_type" df), (has_column "city" df); simpl;
    repeat split; intros; try tauto; try discriminate;
    repeat match goal with
           | H : _ \/ _ |- _ => destruct H
           | H : False |- _ => destruct H
           | H : _ = _ |- _ => discriminate H
           end.
Qed.

(* ================================================================= *)
(** ** The price histogram: the 99th percentile cap (lines 38-39) *)

Lemma filter_length_Permutation {A : Type} (f : A -> bool) (l l' : list A) :
  Permutation l l' ->
  List.length (filter f l) = List.length (filter f l').
Proof.
  induction 1 as [| x l l' _ IH | x y l | l l' l'' _ IH1 _ IH2]; simpl.
  - reflexivity.
  - destruct (f x); simpl; congruence.
  - destruct (f x), (f y); reflexivity.
  - congruence.
Qed.

Lemma filter_length_prefix {A : Type} (f : A -> bool) (l : list A) (k : nat) :
  (forall x, In x (firstn k l) -> f x = true) ->
  (Nat.min k (List.length l) <= List.length (filter f l))%nat.
Proof.
  intro H. rewrite <- (firstn_skipn k l) at 2.
  rewrite filter_app, length_app, forallb_filter_id.
  - rewrite length_firstn. lia.
  - apply forallb_forall. exact H.
Qed.

(** The two neighbours and the weight [quantile] interpolates with. *)
Lemma quantile_parts (q : Q) (col : list (option Q)) (c : Q) :
  (0 <= q <= 1)%Q ->
  quantile q col = Some c ->
  exists (j j' : nat) (g : Q),
    (c == nth j (QSort.sort (dropna col)) 0
          + (nth j' (QSort.sort (dropna col)) 0
             - nth j (QSort.sort (dropna col)) 0) * g)%Q
    /\ (j <= j' < List.length (dropna col))%nat
    /\ (0 <= g <= 1)%Q
    /\ j = Z.to_nat (Qfloor (q * inject_Z (Z.of_nat (List.length (dropna col) - 1)))).
Proof.
  intros [Hq0 Hq1]. unfold quantile. rewrite length_sort.
  set (v := QSort.sort (dropna col)). set (n := List.length (dropna col)).
  destruct (n =? 0)%nat eqn:En; [discriminate |]. apply Nat.eqb_neq in En.
  set (h := (q * inject_Z (Z.of_nat (n - 1)))%Q).
  intro Hc. injection Hc as Hc.
  assert (Hn1 : (0 <= inject_Z (Z.of_nat (n - 1)))%Q).
  { change 0%Q with (inject_Z 0). rewrite <- Zle_Qle. lia. }
  assert (Hh0 : (0 <= h)%Q) by (unfold h; nra).
  assert (Hh1 : (h <= inject_Z (Z.of_nat (n - 1)))%Q) by (unfold h; nra).
  assert (Hf0 : (0 <= Qfloor h)%Z).
  { change 0%Z with (Qfloor 0). now apply Qfloor_resp_le. }
  assert (Hf1 : (Qfloor h <= Z.of_nat (n - 1))%Z).
  { rewrite <- (Qfloor_Z (Z.of_nat (n - 1))). now apply Qfloor_resp_le. }
  exists (Z.to_nat (Qfloor h)), (Nat.min (Z.to_nat (Qfloor h) + 1) (n - 1)),
    (h - inject_Z (Qfloor h))%Q.
  split; [rewrite <- Hc; reflexivity |]. split; [lia |]. split; [| reflexivity].
  pose proof (Qfloor_le h) as Hl. pose proof (Qlt_floor h) as Hu.
  rewrite inject_Z_plus in Hu. change (inject_Z 1) with 1%Q in Hu.
  split; lra.
Qed.

Lemma quantile_None (q : Q) (col : list (option Q)) :
  quantile q col = None <-> forall x, In x col -> x = None.
Proof.
  unfold quantile. rewrite length_sort. split.
  - destruct (List.length (dropna col) =? 0)%nat eqn:En; [| discriminate].
    intros _ [p |] Hx; [| reflexivity].
    apply In_dropna in Hx. apply Nat.eqb_eq, length_zero_iff_nil in En.
    now rewrite En in Hx.
  - intro H. replace (dropna col) with (@nil Q); [reflexivity |].
    destruct (dropna col) as [| p l] eqn:E; [reflexivity |].
    assert (Hp : In p (dropna col)) by (rewrite E; now left).
    apply In_dropna, H in Hp. discriminate.
Qed.

Lemma length_df_price (df : list Listing) (c : Q) :
  price_cap df = Some c ->
  List.length (df_price df)
  = List.length (filter (fun p => Qle_bool p c) (dropna (map price df))).
Proof.
  intro Hc. unfold df_price. rewrite Hc. clear Hc.
  induction df as [| r df IH]; [reflexivity |]. simpl.
  destruct (price r) as [p |]; simpl; [| exact IH].
  destruct (Qle_bool p c); simpl; congruence.
Qed.

(** X13.  The histogram is drawn from the rows whose price is at most
    the 99th-percentile cap.  A row without a price is dropped; the cap
    is NaN exactly when no row has a price, and otherwise lies between
    the lowest and the highest price; of [n] rows with a price, more
    than [99 * (n - 1) / 100] (rounded down) are kept, so at least one. *)
Theorem histogram_cap :
  forall df : list Listing,
  (forall r, In r (df_price df)
             <-> In r df
                 /\ exists p c, price r = Some p /\ price_cap df = Some c
                                /\ (p <= c)%Q)
  /\ (price_cap df = None <-> forall r, In r df -> price r = None)
  /\ (forall lo hi c,
        (forall r p, In r df -> price r = Some p -> (lo <= p <= hi)%Q) ->
        price_cap df = Some c -> (lo <= c <= hi)%Q)
  /\ ((0 < List.length (dropna (map price df)))%nat ->
      99 * (Z.of_nat (List.length (dropna (map price df))) - 1) / 100
      < Z.of_nat (List.length (df_price df))).
Proof.
  intro df. split; [| split; [| split]].
  - intro r. unfold df_price. rewrite filter_In. unfold le_cell.
    destruct (price r) as [p |], (price_cap df) as [c |]; split;
      try (intros [_ H]; discriminate H);
      try (intros [_ (p' & c' & H1 & H2 & _)]; discriminate).
    + intros [Hin H]. split; [exact Hin |]. exists p, c.
      now rewrite <- Qle_bool_iff.
    + intros [Hin (p' & c' & H1 & H2 & H3)]. split; [exact Hin |].
      injection H1 as <-. injection H2 as <-. now apply Qle_bool_iff.
  - unfold price_cap. rewrite quantile_None. split.
    + intros H r Hr. apply H. now apply in_map.
    + intros H x Hx. apply in_map_iff in Hx. destruct Hx as (r & <- & Hr).
      now apply H.
  - intros lo hi c Hrange Hc. unfold price_cap in Hc.
    destruct (quantile_parts 0.99 (map price df) c) as (j & j' & g & E & Hj & Hg & _);
      [split; discriminate | exact Hc |].
    assert (Hv : forall i, (i < List.length (dropna (map price df)))%nat ->
                 (lo <= nth i (QSort.sort (dropna (map price df))) 0 <= hi)%Q).
    { intros i Hi.
      assert (Hin : In (nth i (QSort.sort (dropna (map price df))) 0%Q)
                       (QSort.sort (dropna (map price df))))
        by (apply nth_In; now rewrite length_sort).
      apply In_sort, In_dropna, in_map_iff in Hin.
      destruct Hin as (r & Hr & Hin). now apply (Hrange r). }
    destruct (Hv j) as [Ha1 Ha2]; [lia |].
    destruct (Hv j') as [Hb1 Hb2]; [lia |].
    rewrite E. destruct Hg. split; nra.
  - intro Hn.
    destruct (price_cap df) as [c |] eqn:Hc.
    2:{ exfalso. unfold price_cap in Hc. rewrite quantile_None in Hc.
        destruct (dropna (map price df)) as [| p l] eqn:E;
          [simpl in Hn; lia |].
        assert (Hp : In p (dropna (map price df))) by (rewrite E; now left).
        apply In_dropna, Hc in Hp. discriminate. }
    rewrite (length_df_price df c Hc).
    rewrite (filter_length_Permutation _ _ _ (QSort.Permuted_sort _)).
    unfold price_cap in Hc.
    destruct (quantile_parts 0.99 (map price df) c) as (j & j' & g & E & Hj & Hg & Ej);
      [split; discriminate | exact Hc |].
    pose proof (StronglySorted_sort_Qle (dropna (map price df))) as Hs.
    set (v := QSort.sort (dropna (map price df))) in *.
    assert (Hlen : List.length v = List.length (dropna (map price df)))
      by apply length_sort.
    assert (Hjc : (nth j v 0 <= c)%Q).
    { pose proof (StronglySorted_nth v Hs j j' ltac:(lia)) as Hab.
      rewrite E. destruct Hg. nra. }
    pose proof (filter_length_prefix (fun p => Qle_bool p c) v (j + 1)) as Hk.
    rewrite Nat.min_l in Hk by lia.
    assert (Hfloor : Z.of_nat j
                     = 99 * (Z.of_nat (List.length (dropna (map price df))) - 1)
                       / 100).
    { rewrite Ej. rewrite Z2Nat.id.
      - unfold Qfloor, Qmult, inject_Z. cbn [Qnum Qden].
        rewrite Nat2Z.inj_sub by lia. reflexivity.
      - unfold Qfloor, Qmult, inject_Z. cbn [Qnum Qden].
        apply Z.div_pos; lia. }
    rewrite <- Hfloor.
    enough (j + 1 <= List.length (filter (fun p => Qle_bool p c) v))%nat by lia.
    apply Hk. intros x Hx. apply Qle_bool_iff.
    apply (In_nth _ _ 0%Q) in Hx. destruct Hx as (i & Hi & <-).
    rewrite length_firstn in Hi. rewrite nth_firstn.
    replace (i <? j + 1)%nat with true by (symmetry; apply Nat.ltb_lt; lia).
    apply Qle_trans with (nth j v 0%Q); [| exact Hjc].
    apply StronglySorted_nth; [exact Hs | lia].
Qed.

(** The scenario dataset: three prices, cap 198, the listing at 200 is
    left out of the histogram. *)
Lemma histogram_cap_witness :
  99 * (Z.of_nat (List.length (dropna (map price scenario_df))) - 1) / 100
  < Z.of_nat (List.length (df_price scenario_df)).
Proof.
  apply (proj2 (proj2 (proj2 (histogram_cap scenario_df)))).
  simpl. lia.
Defined.

(* ================================================================= *)
(** ** The bar charts: mean price per group (lines 54-59 and 96-102) *)

Lemma In_group (key : Listing -> option string) (k : string)
    (df : list Listing) (r : Listing) :
  In r (group key k df) <-> In r df /\ key r = Some k.
Proof. unfold group. now rewrite filter_In, cell_eqb_Some. Qed.

Lemma mean_skipna_None (col : list (option Q)) :
  mean_skipna col = None <-> forall x, In x col -> x = None.
Proof.
  unfold mean_skipna. split.
  - destruct (List.length (dropna col) =? 0)%nat eqn:En; [| discriminate].
    intros _ [p |] Hx; [| reflexivity].
    apply In_dropna in Hx. apply Nat.eqb_eq, length_zero_iff_nil in En.
    now rewrite En in Hx.
  - intro H. replace (dropna col) with (@nil Q); [reflexivity |].
    destruct (dropna col) as [| p l] eqn:E; [reflexivity |].
    assert (Hp : In p (dropna col)) by (rewrite E; now left).
    apply In_dropna, H in Hp. discriminate.
Qed.

Lemma mean_skipna_bounds (col : list (option Q)) (lo hi m : Q) :
  (forall p, In (Some p) col -> (lo <= p <= hi)%Q) ->
  mean_skipna col = Some m -> (lo <= m <= hi)%Q.
Proof.
  intros H. unfold mean_skipna.
  destruct (List.length (dropna col) =? 0)%nat eqn:En; [discriminate |].
  intro Hm. injection Hm as <-. rewrite py_sum_fold_right.
  apply (mean_bounds lo hi (dropna col)).
  - intro E. rewrite E in En. discriminate.
  - intros x Hx. apply H. now apply In_dropna.
Qed.

Lemma groupby_mean_keys (key : Listing -> option string) (df : list Listing) :
  map fst (groupby_mean key df) = select_options (map key df)
  /\ List.length (groupby_mean key df)
     = List.length (select_options (map key df)).
Proof.
  unfold groupby_mean. split; [| apply length_map].
  rewrite map_map. simpl. apply map_id.
Qed.

(** X14.  The table of mean prices has one row per value present in the
    key column, in ascending order of the value and without repetition;
    rows with a missing key count for no group.  The mean of a group is
    NaN exactly when none of its rows has a price. *)
Theorem groupby_mean_table :
  forall (key : Listing -> option string) (df : list Listing),
  map fst (groupby_mean key df) = select_options (map key df)
  /\ NoDup (map fst (groupby_mean key df))
  /\ (forall k, (exists m, In (k, m) (groupby_mean key df))
                <-> exists r, In r df /\ key r = Some k)
  /\ (forall k m, In (k, m) (groupby_mean key df) ->
        m = mean_skipna (map price (group key k df))
        /\ (m = None
            <-> forall r, In r df -> key r = Some k -> price r = None)).
Proof.
  intros key df.
  pose proof (proj1 (groupby_mean_keys key df)) as Hkeys.
  split; [exact Hkeys |]. split; [| split].
  - rewrite Hkeys. apply select_options_distinct.
  - intro k. split.
    + intros [m Hm]. apply (in_map fst) in Hm. rewrite Hkeys in Hm.
      apply In_select_options, in_map_iff in Hm.
      destruct Hm as (r & Hr & Hin). now exists r.
    + intros (r & Hin & Hr).
      assert (Hk : In k (map fst (groupby_mean key df))).
      { rewrite Hkeys. apply In_select_options. rewrite <- Hr.
        now apply in_map. }
      apply in_map_iff in Hk. destruct Hk as ([k' m] & E & Hk).
      simpl in E. subst k'. now exists m.
  - intros k m Hm. unfold groupby_mean in Hm. apply in_map_iff in Hm.
    destruct Hm as (k' & E & _). injection E as -> <-.
    split; [reflexivity |].
    rewrite mean_skipna_None. split.
    + intros H r Hin Hr. apply H. apply in_map. now apply In_group.
    + intros H x Hx. apply in_map_iff in Hx. destruct Hx as (r & <- & Hr).
      apply In_group in Hr. now apply H.
Qed.

(** A city whose only listing has no price: its mean is NaN. *)
Lemma groupby_mean_table_witness :
  None = mean_skipna
           (map price
                (group city "A"
                       [mkListing (Some "A"%string) (Some "Entire home"%string)
                                  None])).
Proof.
  destruct (groupby_mean_table
              city [mkListing (Some "A"%string) (Some "Entire home"%string)
                              None])
    as (_ & _ & _ & H).
  destruct (H "A"%string None) as [E _]; [left; reflexivity | exact E].
Defined.

Lemma price_desc_b_iff (x y : string * option Q) :
  price_desc_b x y = true <-> price_desc x y.
Proof.
  unfold price_desc_b, price_desc.
  destruct (snd x) as [a |], (snd y) as [b |];
    rewrite ?Qle_bool_iff; intuition discriminate.
Qed.

(** Every table can be sorted as [sort_values_desc] asks. *)
Lemma sort_values_desc_exists (table : list (string * option Q)) :
  sort_values_desc table (PriceDescSort.sort table).
Proof.
  split; [apply PriceDescSort.Permuted_sort |].
  assert (H : StronglySorted (fun x y => is_true (price_desc_b x y))
                             (PriceDescSort.sort table)).
  { apply PriceDescSort.StronglySorted_sort. intros x y z.
    unfold is_true, PriceDescOrder.leb. rewrite !price_desc_b_iff.
    unfold price_desc.
    destruct (snd x) as [a |], (snd y) as [b |], (snd z) as [c |];
      try tauto. intros H1 H2. now apply Qle_trans with b. }
  induction H as [| a s Hs IH Ha]; constructor; [exact IH |].
  apply Forall_impl with (2 := Ha). intros x Hx. now apply price_desc_b_iff.
Qed.

Lemma StronglySorted_app_inv {A : Type} (R : A -> A -> Prop) (l1 l2 : list A) :
  StronglySorted R (l1 ++ l2) ->
  StronglySorted R l1 /\ StronglySorted R l2
  /\ forall x y, In x l1 -> In y l2 -> R x y.
Proof.
  induction l1 as [| a l1 IH]; simpl; intro H.
  - split; [constructor |]. split; [exact H |]. intros x y [].
  - apply StronglySorted_inv in H. destruct H as [Hs Ha].
    destruct (IH Hs) as (H1 & H2 & H3). rewrite Forall_forall in Ha.
    split; [| split; [exact H2 |]].
    + constructor; [exact H1 |]. apply Forall_forall. intros x Hx.
      apply Ha, in_or_app. now left.
    + intros x y [<- | Hx] Hy; [| now apply H3].
      apply Ha, in_or_app. now right.
Qed.

(** X15.  Whatever order the sort leaves equal means in: the room-type
    chart shows every room type of the table once; the city chart shows
    ten cities, or all of them when there are fewer, each once, in
    descending order of the mean price with NaN last, and no city left
    out ranks before a city shown. *)
Theorem bar_charts_ranked :
  forall (df : list Listing) (out : list (string * option Q)),
  (room_price df out ->
     (forall row, In row out <-> In row (groupby_mean room_type df))
     /\ NoDup (map fst out)
     /\ List.length out = List.length (select_options (map room_type df))
     /\ StronglySorted price_desc out)
  /\ (city_price df out ->
      List.length out
      = Nat.min 10 (List.length (select_options (map city df)))
      /\ NoDup (map fst out)
      /\ (forall row, In row out -> In row (groupby_mean city df))
      /\ StronglySorted price_desc out
      /\ (forall row, In row (groupby_mean city df) -> ~ In row out ->
                      forall x, In x out -> price_desc x row)).
Proof.
  intros df out. split.
  - intros [Hperm Hsorted].
    split; [| split; [| split; [| exact Hsorted]]].
    + intro row. split; apply Permutation_in;
        [apply Permutation_sym |]; exact Hperm.
    + apply Permutation_NoDup with (map fst (groupby_mean room_type df)).
      * now apply Permutation_map.
      * rewrite (proj1 (groupby_mean_keys room_type df)).
        apply select_options_distinct.
    + rewrite <- (Permutation_length Hperm).
      unfold groupby_mean. apply length_map.
  - intros (sorted & [Hperm Hsorted] & ->).
    rewrite <- (firstn_skipn 10 sorted) in Hsorted.
    destruct (StronglySorted_app_inv _ _ _ Hsorted) as (H1 & _ & H3).
    split; [| split; [| split; [| split; [exact H1 |]]]].
    + rewrite length_firstn, <- (Permutation_length Hperm).
      unfold groupby_mean. now rewrite length_map.
    + assert (Hnd : NoDup (map fst sorted)).
      { apply Permutation_NoDup with (map fst (groupby_mean city df)).
        - now apply Permutation_map.
        - rewrite (proj1 (groupby_mean_keys city df)).
          apply select_options_distinct. }
      rewrite <- (firstn_skipn 10 sorted), map_app in Hnd.
      now apply NoDup_app_remove_r in Hnd.
    + intros row Hrow. apply Permutation_in with sorted;
        [now apply Permutation_sym |].
      rewrite <- (firstn_skipn 10 sorted). apply in_or_app. now left.
    + intros row Hrow Hout x Hx. apply H3; [exact Hx |].
      apply (Permutation_in _ Hperm) in Hrow.
      rewrite <- (firstn_skipn 10 sorted) in Hrow.
      apply in_app_or in Hrow. tauto.
Qed.

(** The scenario dataset: B, mean 200, before A, mean 75. *)
Lemma bar_charts_ranked_witness :
  List.length [("B"%string, Some 200%Q); ("A"%string, Some (150 # 2))]
  = Nat.min 10 (List.length (select_options (map city scenario_df))).
Proof.
  apply (proj2 (bar_charts_ranked scenario_df
                  [("B"%string, Some 200%Q); ("A"%string, Some (150 # 2))])).
  exists [("B"%string, Some 200%Q); ("A"%string, Some (150 # 2))].
  split; [| reflexivity]. split.
  - change (groupby_mean city scenario_df)
      with [("A"%string, Some (150 # 2)); ("B"%string, Some 200%Q)].
    apply perm_swap.
  - repeat constructor. unfold price_desc. simpl. discriminate.
Defined.

(* ================================================================= *)
(** ** The pie chart: listings per room type (lines 77-79) *)

(** The number of cells of [l] equal to [k]. *)
Lemma occurrences_cells (col : list (option string)) (k : string) :
  List.length (filter (fun c => cell_eqb c (Some k)) col)
  = List.length (filter (fun x => String.eqb x k) (dropna col)).
Proof.
  induction col as [| [x |] col IH]; simpl; [reflexivity | | exact IH].
  destruct (String.eqb x k); simpl; congruence.
Qed.

Lemma list_sum_split (f : string -> nat) (x : string) (u : list string) :
  NoDup u -> (~ In x u -> f x = 0%nat) ->
  (f x + list_sum (map f (filter (fun y => negb (String.eqb x y)) u))
   = list_sum (map f u))%nat.
Proof.
  induction 1 as [| a u Ha Hu IH]; intro H0; simpl.
  - rewrite H0 by tauto. reflexivity.
  - destruct (String.eqb x a) eqn:E; simpl.
    + apply String.eqb_eq in E. subst a.
      rewrite forallb_filter_id; [reflexivity |].
      apply forallb_forall. intros y Hy. apply negb_true_iff, String.eqb_neq.
      intros ->. contradiction.
    + apply String.eqb_neq in E. rewrite <- IH; [lia |].
      intro Hx. apply H0. intros [-> | Hin]; [now apply E | contradiction].
Qed.

Lemma occurrences_sum (l : list string) :
  list_sum
    (map (fun k => List.length (filter (fun x => String.eqb x k) l))
         (unique l))
  = List.length l.
Proof.
  induction l as [| x l IH]; [reflexivity |].
  cbn [unique map list_sum filter]. rewrite String.eqb_refl. cbn [List.length].
  rewrite map_ext_in
    with (g := fun k => List.length (filter (fun y => String.eqb y k) l)).
  - transitivity
      (S (list_sum
            (map (fun k => List.length (filter (fun y => String.eqb y k) l))
                 (unique l)))); [| now rewrite IH].
    rewrite <- (list_sum_split
                  (fun k => List.length (filter (fun y => String.eqb y k) l))
                  x (unique l)); [simpl; lia | apply NoDup_unique |].
    intro Hx. rewrite In_unique in Hx.
    destruct (filter (fun y => String.eqb y x) l) as [| y l'] eqn:E;
      [reflexivity |].
    assert (Hy : In y (filter (fun y => String.eqb y x) l))
      by (rewrite E; now left).
    apply filter_In in Hy. destruct Hy as [Hy Hxy].
    apply String.eqb_eq in Hxy. subst y. contradiction.
  - intros k Hk. apply filter_In in Hk. destruct Hk as [_ Hk].
    apply negb_true_iff in Hk. now rewrite Hk.
Qed.

Lemma list_sum_Permutation (l l' : list nat) :
  Permutation l l' -> list_sum l = list_sum l'.
Proof.
  induction 1; simpl; lia.
Qed.

Lemma value_counts_keys (col : list (option string)) :
  map fst (value_counts col) = unique (dropna col)
  /\ list_sum (map snd (value_counts col)) = List.length (dropna col).
Proof.
  unfold value_counts. split.
  - rewrite map_map. simpl. apply map_id.
  - rewrite map_map. simpl. rewrite <- (occurrences_sum (dropna col)).
    f_equal. apply map_ext. intro k. apply occurrences_cells.
Qed.

(** X16.  The counts behind the pie chart partition the listings that
    have a room type: each room type present is counted once, with the
    number of its listings, at least 1, and the counts add up to the
    number of listings whose room type is not missing; sorting the
    counts changes neither. *)
Theorem value_counts_partition :
  forall (df : list Listing),
  list_sum (map snd (value_counts (map room_type df)))
  = List.length (dropna (map room_type df))
  /\ NoDup (map fst (value_counts (map room_type df)))
  /\ (forall k, (exists n, In (k, n) (value_counts (map room_type df)))
                <-> exists r, In r df /\ room_type r = Some k)
  /\ (forall k n, In (k, n) (value_counts (map room_type df)) ->
        n = List.length (group room_type k df) /\ (1 <= n)%nat)
  /\ (forall out, room_counts df out ->
        list_sum (map snd out) = List.length (dropna (map room_type df))
        /\ NoDup (map fst out)
        /\ forall row, In row out
                       <-> In row (value_counts (map room_type df))).
Proof.
  intro df. destruct (value_counts_keys (map room_type df)) as [Hkeys Hsum].
  assert (Hrow : forall k n, In (k, n) (value_counts (map room_type df)) ->
                 In (Some k) (map room_type df)
                 /\ n = List.length (group room_type k df)).
  { intros k n H. unfold value_counts in H. apply in_map_iff in H.
    destruct H as (k' & E & Hk). injection E as -> <-.
    apply In_unique, In_dropna in Hk. split; [exact Hk |].
    unfold group. clear. induction df as [| r df IH]; [reflexivity |].
    simpl. destruct (cell_eqb (room_type r) (Some k)); simpl; congruence. }
  split; [exact Hsum |]. split; [rewrite Hkeys; apply NoDup_unique |].
  split; [| split].
  - intro k. split.
    + intros [n Hn]. apply Hrow in Hn. destruct Hn as [Hn _].
      apply in_map_iff in Hn. destruct Hn as (r & Hr & Hin). now exists r.
    + intros (r & Hin & Hr).
      assert (Hk : In k (map fst (value_counts (map room_type df)))).
      { rewrite Hkeys. apply In_unique, In_dropna. rewrite <- Hr.
        now apply in_map. }
      apply in_map_iff in Hk. destruct Hk as ([k' n] & E & Hk).
      simpl in E. subst k'. now exists n.
  - intros k n H. destruct (Hrow k n H) as [Hk Hn]. split; [exact Hn |].
    apply in_map_iff in Hk. destruct Hk as (r & Hr & Hin).
    assert (Hg : In r (group room_type k df)) by now apply In_group.
    rewrite Hn. destruct (group room_type k df); [contradiction | simpl; lia].
  - intros out [Hperm _]. split; [| split].
    + rewrite <- Hsum. symmetry. apply list_sum_Permutation.
      now apply Permutation_map.
    + apply Permutation_NoDup
        with (map fst (value_counts (map room_type df))).
      * now apply Permutation_map.
      * rewrite Hkeys. apply NoDup_unique.
    + intro row. split; apply Permutation_in;
        [apply Permutation_sym |]; exact Hperm.
Qed.

(** The scenario dataset: two entire homes and one private room. *)
Lemma value_counts_partition_witness :
  list_sum (map snd [("Entire home"%string, 2%nat);
                     ("Private room"%string, 1%nat)])
  = List.length (dropna (map room_type scenario_df)).
Proof.
  apply (proj2 (proj2 (proj2 (proj2 (value_counts_partition scenario_df))))).
  split.
  - apply Permutation_refl.
  - repeat constructor.
Defined.

(* ================================================================= *)
(** ** Other cities and the success box *)

Lemma avg_mult_between (check_in check_out : date) (lo hi : Q) :
  check_in < check_out ->
  (forall d, check_in <= d < check_out -> (lo <= date_multiplier d <= hi)%Q) ->
  (lo <= avg_mult check_in check_out <= hi)%Q.
Proof.
  intros Hlt H.
  rewrite avg_mult_mean by now apply stay_dates_nonempty.
  apply mean_bounds.
  - intro E. apply map_eq_nil in E. revert E. now apply stay_dates_nonempty.
  - intros x Hx. apply in_map_iff in Hx. destruct Hx as (d & <- & Hd).
    apply H. now apply In_stay_dates.
Qed.

Lemma filter_none {A : Type} (f : A -> bool) (l : list A) :
  (forall x, In x l -> f x = false) -> filter f l = [].
Proof.
  induction l as [| x l IH]; intro H; [reflexivity |]. simpl.
  rewrite (H x (or_introl eq_refl)). apply IH. intros y Hy. apply H.
  now right.
Qed.

(** X18.  Listings of other cities do not move the base price of a city
    that has listings: adding rows of other cities, or rows without a
    city, before or after the dataset leaves the base price and the
    estimate of that city as they were. *)
Theorem other_cities_do_not_matter :
  forall (df before after : list Listing) (c : string) (rv : option string)
         (check_in check_out : date),
  (exists r, In r df /\ city r = Some c) ->
  (forall r, In r before \/ In r after -> city r <> Some c) ->
  base_price (before ++ df ++ after) (Some c) rv = base_price df (Some c) rv
  /\ adjusted_price (before ++ df ++ after) (Some c) rv check_in check_out
     = adjusted_price df (Some c) rv check_in check_out.
Proof.
  intros df before after c rv ci co (r0 & Hin0 & Hr0) Hother.
  assert (Hno : forall l, (forall r, In r l -> city r <> Some c) ->
                forall r, In r l -> cell_eqb (city r) (Some c) = false).
  { intros l Hl r Hr. destruct (cell_eqb (city r) (Some c)) eqn:E;
      [| reflexivity]. apply cell_eqb_Some in E. now apply Hl in E. }
  assert (Hcity : subset_city (before ++ df ++ after) (Some c)
                  = subset_city df (Some c)).
  { unfold subset_city. rewrite !filter_app.
    rewrite (filter_none _ before), (filter_none _ after).
    - now rewrite app_nil_r.
    - apply Hno. intros r Hr. apply Hother. now right.
    - apply Hno. intros r Hr. apply Hother. now left. }
  assert (Hroom : subset_city_room (before ++ df ++ after) (Some c) rv
                  = subset_city_room df (Some c) rv).
  { unfold subset_city_room. rewrite !filter_app.
    rewrite (filter_none _ before), (filter_none _ after).
    - now rewrite app_nil_r.
    - intros r Hr. rewrite (Hno after); [reflexivity | | exact Hr].
      intros r' Hr'. apply Hother. now right.
    - intros r Hr. rewrite (Hno before); [reflexivity | | exact Hr].
      intros r' Hr'. apply Hother. now left. }
  assert (Hne : subset_city df (Some c) <> []).
  { apply nonempty_iff_inhabited. exists r0. now apply In_subset_city. }
  assert (Hsub : base_subset (before ++ df ++ after) (Some c) rv
                 = base_subset df (Some c) rv).
  { unfold base_subset. rewrite Hroom, Hcity, !length_eqb_0.
    destruct (subset_city_room df (Some c) rv); [| reflexivity].
    destruct (subset_city df (Some c)); [congruence | reflexivity]. }
  assert (Hbase : base_price (before ++ df ++ after) (Some c) rv
                  = base_price df (Some c) rv).
  { unfold base_price. now rewrite Hsub. }
  split; [exact Hbase |]. unfold adjusted_price. now rewrite Hbase.
Qed.

(** City A of the scenario dataset with and without the listing of B. *)
Lemma other_cities_do_not_matter_witness :
  base_price
    ([] ++ [mkListing (Some "A"%string) (Some "Entire home"%string) (Some 100%Q);
            mkListing (Some "A"%string) (Some "Private room"%string) (Some 50%Q)]
        ++ [mkListing (Some "B"%string) (Some "Entire home"%string) (Some 200%Q)])
    (Some "A"%string) (Some "Shared room"%string)
  = base_price
      [mkListing (Some "A"%string) (Some "Entire home"%string) (Some 100%Q);
       mkListing (Some "A"%string) (Some "Private room"%string) (Some 50%Q)]
      (Some "A"%string) (Some "Shared room"%string).
Proof.
  apply (other_cities_do_not_matter _ _ _ _ _ 0 0).
  - eexists. split; [left; reflexivity | reflexivity].
  - intros r [[] | [<- | []]]. discriminate.
Defined.

(** X19.  Whenever a success box is on the page it reports the city and
    room type the select boxes returned, the estimate for them over the
    dates of the two pickers, and a nights count that is check-out minus
    check-in and at least 1. *)
Theorem success_box_contents :
  forall (df : DataFrame) (s : Session)
         (p : option Q) (rv cv : option string) (n : Z),
  In (st_success p rv cv n) (page_of (dashboard (Some df) s)) ->
  cv = selectbox (select_options (map city (rows df))) (city_choice s)
  /\ rv = selectbox (select_options (map room_type (rows df)))
                    (room_type_choice s)
  /\ p = adjusted_price (rows df) cv rv (check_in_input s) (check_out_of s)
  /\ n = check_out_of s - check_in_input s
  /\ 1 <= n.
Proof.
  intros df s p rv cv n.
  unfold dashboard, load_section, charts, chart_room_type, chart_city,
    predictor, estimate_action, check_out_of, nights, page_of.
  destruct (_ <=? check_in_input s) eqn:Hguard, (clicked s);
    split_columns df; simpl;
    intro H;
    repeat match type of H with
           | _ \/ _ => destruct H as [H | H]
           | False => destruct H
           | _ = _ => first [discriminate H | injection H as <- <- <- <-]
           end.
  all: apply Z.leb_gt in Hguard.
  all: repeat split; try reflexivity; lia.
Qed.

(** The scenario dataset, a fresh session with the button pressed. *)
Lemma success_box_contents_witness :
  (1 : Z) = check_out_of (mkSession 0 0 (ymd2ord 2024 1 2) None true)
            - check_in_input (mkSession 0 0 (ymd2ord 2024 1 2) None true).
Proof.
  apply (success_box_contents
           (mkDataFrame ["city"; "room_type"; "price"]%string scenario_df)
           (mkSession 0 0 (ymd2ord 2024 1 2) None true)
           (Some 100%Q) (Some "Entire home"%string) (Some "A"%string) 1).
  vm_compute. tauto.
Defined.
